(** * docker-registry: the Glance storage driver ([lib/storage/glance.py])

    A shallow embedding of the two classes of the driver:
    - [GlanceStorage], the dispatcher that forwards every storage call to
      one of three backends according to the prefix of the path argument;
    - [GlanceStorageLayers], the backend that keeps image layers and their
      metadata in OpenStack Glance, and renames Glance images when a
      registry tag is created or deleted.

    Python exceptions are results of an error monad over the state of the
    image service; a raised exception keeps the writes made before it. *)

From Stdlib Require Import String Ascii.
From stdpp Require Import gmap strings list fin_maps.

Local Open Scope string_scope.
Local Open Scope list_scope.

(** ** Python values and string primitives *)

Module Py.

(** The exception classes the driver raises or lets escape. *)
Inductive exn : Type :=
| ValueError (msg : string)
| IOError (msg : string)
| OSError (msg : string)
| KeyError (key : string)
| AttributeError (msg : string)
| HTTPNotFound.

Inductive result (A : Type) : Type :=
| Ok (a : A)
| Raise (e : exn).
Arguments Ok {A} a.
Arguments Raise {A} e.

(** [s.startswith(p)] *)
Definition startswith (s p : string) : bool := String.prefix p s.

(** [s.split(sep)] for a one-character separator: never the empty list,
    one more segment than there are separators. *)
Fixpoint split (sep : ascii) (s : string) : list string :=
  match s with
  | EmptyString => [EmptyString]
  | String c r =>
      if Ascii.eqb c sep then EmptyString :: split sep r
      else match split sep r with
           | [] => [String c EmptyString]
           | seg :: segs => String c seg :: segs
           end
  end.

(** [s] between double quotes *)
Definition quoted (s : string) : string :=
  String "034"%char (s +:+ String "034"%char EmptyString).

(** Truth value of a string-or-[None], as tested by [if not propname]. *)
Definition truthy_str (o : option string) : bool :=
  match o with
  | Some s => negb (String.eqb s "")
  | None => false
  end.

End Py.
Export Py.

(** ** The image service *)

Module Glance.

(** One image record of the service. *)
Record Image : Type := mkImage {
  disk_format : string;
  container_format : string;
  properties : gmap string string;
  name : option string;
  size : nat;
  data : option string
}.

(** Modelled from the spec: the image service (python-glanceclient and
    the Glance server behind it) is an external collaborator.  Its
    contract is: list with filters on format, property and name; create
    with formats and initial properties; update of properties, data and
    name, each independently settable, with a flag that purges the
    properties left out of the update; delete; fetch data; read the size.

    The store is the sequence of records ever created; the position of a
    record is its native identifier and a deleted record leaves [None]
    behind.  [list] answers in creation order. *)
Abbreviation Store := (list (option Image)).

(** A resource handle as the client returns it: the native identifier
    and the fields as they were when the handle was obtained. *)
Record Handle : Type := mkHandle {
  h_id : nat;
  h_fields : Image
}.

Record Filters : Type := mkFilters {
  f_disk_format : option string;
  f_container_format : option string;
  f_properties : gmap string string;
  f_name : option string
}.

(** Keyword arguments of [image.update]; [None] is an argument that the
    caller did not pass.  [u_name = Some None] is [name=None]. *)
Record UpdateArgs : Type := mkUpdate {
  u_name : option (option string);
  u_properties : option (gmap string string);
  u_data : option string;
  u_purge_props : option bool
}.

(** State and error monad over the store. *)
Definition M (A : Type) : Type := Store → result A * Store.

Definition ret {A} (a : A) : M A := λ st, (Ok a, st).
Definition raise {A} (e : exn) : M A := λ st, (Raise e, st).
Definition bind {A B} (m : M A) (k : A → M B) : M B :=
  λ st, match m st with
        | (Ok a, st') => k a st'
        | (Raise e, st') => (Raise e, st')
        end.

Global Instance M_ret : MRet M := @ret.
Global Instance M_bind : MBind M := λ A B k m, bind m k.

(** Runs the monad one step: unfolds [bind], [ret] and [raise]. *)
Ltac run :=
  unfold mbind, M_bind, bind, mret, M_ret, ret, raise; simpl.

(** [for x in l: body(x)] *)
Fixpoint for_each {A} (l : list A) (body : A → M unit) : M unit :=
  match l with
  | [] => ret tt
  | x :: r => body x ;; for_each r body
  end.

Definition opt_matches (o : option string) (v : string) : bool :=
  match o with
  | Some w => String.eqb w v
  | None => true
  end.

(** Does the record pass the filters of a [list] call? *)
Definition matches (f : Filters) (img : Image) : bool :=
  opt_matches (f_disk_format f) (disk_format img)
  && opt_matches (f_container_format f) (container_format img)
  && bool_decide (f_properties f ⊆ properties img)
  && match f_name f with
     | Some n => bool_decide (name img = Some n)
     | None => true
     end.

(** Handles of the live records from position [i] on that pass [f]. *)
Fixpoint handles_from (f : Filters) (i : nat) (st : Store) : list Handle :=
  match st with
  | [] => []
  | Some img :: r =>
      if matches f img then mkHandle i img :: handles_from f (S i) r
      else handles_from f (S i) r
  | None :: r => handles_from f (S i) r
  end.

(** [glance.images.list(filters=f)] *)
Definition images_list (f : Filters) : M (list Handle) :=
  λ st, (Ok (handles_from f 0 st), st).

(** [glance.images.create(disk_format=, container_format=, properties=)] *)
Definition images_create (df cf : string) (props : gmap string string)
  : M Handle :=
  λ st,
    let img := {| disk_format := df; container_format := cf;
                  properties := props; name := None; size := 0;
                  data := None |} in
    (Ok (mkHandle (length st) img), st ++ [Some img]).

Section Update.
(** What the service does with the properties left out of an update
    that carries no purge flag. *)
Context (default_purge : bool).

Definition apply_update (u : UpdateArgs) (img : Image) : Image :=
  let purge := default default_purge (u_purge_props u) in
  let given := default ∅ (u_properties u) in
  {| disk_format := disk_format img;
     container_format := container_format img;
     properties := if purge then given else given ∪ properties img;
     name := default (name img) (u_name u);
     size := match u_data u with
             | Some d => String.length d
             | None => size img
             end;
     data := match u_data u with
             | Some d => Some d
             | None => data img
             end |}.

(** [image.update] with keyword arguments [u]: the service applies the
    update to the record the handle names, whatever the handle's own
    fields are. *)
Definition image_update (h : Handle) (u : UpdateArgs) : M unit :=
  λ st, match st !! h_id h with
        | Some (Some img) =>
            (Ok tt, <[h_id h := Some (apply_update u img)]> st)
        | _ => (Raise HTTPNotFound, st)
        end.
End Update.

(** [image.delete()] *)
Definition image_delete (h : Handle) : M unit :=
  λ st, match st !! h_id h with
        | Some (Some _) => (Ok tt, <[h_id h := None]> st)
        | _ => (Raise HTTPNotFound, st)
        end.

(** [image.data(do_checksum=False)] *)
Definition image_data (h : Handle) : M string :=
  λ st, match st !! h_id h with
        | Some (Some img) => (Ok (default "" (data img)), st)
        | _ => (Raise HTTPNotFound, st)
        end.

End Glance.
Export Glance.

(** ** The base class *)

Module Storage.

(** Modelled from the spec: the base class [Storage] is defined in the
    package's [__init__], which is not part of this development.  Of it
    the driver reads the two namespace prefixes, the fixed constants
    [images] and [repositories]. *)
Definition images : string := "images".
Definition repositories : string := "repositories".

End Storage.

(** The registry configuration, read with [config.get(key, default)] and
    [config.key]. *)
Abbreviation Config := (gmap string string).

(** ** [class GlanceStorageLayers(Storage)] *)

Module GlanceStorageLayers.

Record t : Type := mk { _config : Config }.

Definition disk_format : string := "raw".
Definition container_format : string := "bare".

(** [__init__]; it also connects the two tag handlers below to the
    [tag_created] and [tag_deleted] signals. *)
Definition __init__ (config : Config) : t := {| _config := config |}.

(** What [glanceclient.Client('1', endpoint=, token=)] is built from. *)
Record Client : Type := mkClient {
  endpoint : option string;
  token : string
}.

Section Methods.
Context (default_purge : bool).
(** [os.environ] *)
Context (environ : gmap string string).
Context (self : t).

Definition _create_glance_client : M Client :=
  let endpoint := _config self !! "glance_endpoint" in
  match environ !! "OS_AUTH_TOKEN" with
  | Some tok => mret (mkClient endpoint tok)
  | None => raise (KeyError "OS_AUTH_TOKEN")
  end.

Definition _find_image_by_id (glance : Client) (image_id : string)
  : M (option Handle) :=
  let filters :=
    {| f_disk_format := Some disk_format;
       f_container_format := Some container_format;
       f_properties := {[ "id" := image_id ]};
       f_name := None |} in
  images ← images_list filters;
  match images with
  | image :: _ => mret (Some image)
  | [] => mret None
  end.

Definition _init_path (path : string) (create : bool)
  : M (option Handle * option string) :=
  let parts := split "/" path in
  if negb (Nat.eqb (length parts) 3)
     || negb (String.eqb (parts !!! 0) Storage.images)
  then raise (ValueError ("Invalid path: " +:+ path))
  else
    let image_id := parts !!! 1 in
    let filename := parts !!! 2 in
    glance ← _create_glance_client;
    image ← _find_image_by_id glance image_id;
    image ← (match image with
             | None =>
                 if create then
                   image ← images_create disk_format container_format
                             {[ "id" := image_id ]};
                   mret (Some image)
                 else mret image
             | Some _ => mret image
             end);
    let propname := Some ("meta_" +:+ filename) in
    let propname :=
      if String.eqb filename "layer" then None else propname in
    mret (image, propname).

Definition _clear_images_name (glance : Client) (image_name : string)
  : M unit :=
  images ← images_list
             {| f_disk_format := None; f_container_format := None;
                f_properties := ∅; f_name := Some image_name |};
  for_each images (λ image,
    image_update default_purge image
      {| u_name := Some None; u_properties := None; u_data := None;
         u_purge_props := Some false |}).

Definition _handler_tag_created {S : Type} (sender : S)
    (namespace repository tag value : string) : M unit :=
  glance ← _create_glance_client;
  image ← _find_image_by_id glance value;
  match image with
  | None => mret tt
  | Some image =>
      let image_name := repository +:+ ":" +:+ tag in
      let image_name :=
        if negb (String.eqb namespace "library")
        then namespace +:+ "/" +:+ image_name
        else image_name in
      _clear_images_name glance image_name;;
      image_update default_purge image
        {| u_name := Some (Some image_name); u_properties := None;
           u_data := None; u_purge_props := Some false |}
  end.

Definition _handler_tag_deleted {S : Type} (sender : S)
    (namespace repository tag : string) : M unit :=
  let image_name := repository +:+ ":" +:+ tag in
  let image_name :=
    if negb (String.eqb namespace "library")
    then namespace +:+ "/" +:+ image_name
    else image_name in
  glance ← _create_glance_client;
  _clear_images_name glance image_name.

Definition get_content (path : string) : M string :=
  '(image, propname) ← _init_path path false;
  if negb (truthy_str propname)
  then raise (ValueError "Wrong call (should be stream_read)")
  else
    let propname := default "" propname in
    match image with
    | None => raise (IOError ("No such image " +:+ path))
    | Some image =>
        match properties (h_fields image) !! propname with
        | None => raise (IOError ("No such image " +:+ path))
        | Some content => mret content
        end
    end.

(** [image.m(...)] on [image = None] *)
Definition on_image {A} (image : option Handle) (m : string)
    (k : Handle → M A) : M A :=
  match image with
  | Some image => k image
  | None =>
      raise (AttributeError
               ("'NoneType' object has no attribute '" +:+ m +:+ "'"))
  end.

Definition put_content (path content : string) : M unit :=
  '(image, propname) ← _init_path path true;
  if negb (truthy_str propname)
  then raise (ValueError "Wrong call (should be stream_write)")
  else
    let propname := default "" propname in
    let props := {[ propname := content ]} in
    on_image image "update" (λ image,
      image_update default_purge image
        {| u_name := None; u_properties := Some props; u_data := None;
           u_purge_props := Some false |}).

Definition stream_read (path : string) : M string :=
  '(image, propname) ← _init_path path false;
  if truthy_str propname
  then raise (ValueError "Wrong call (should be get_content)")
  else
    match image with
    | None => raise (IOError ("No such image " +:+ path))
    | Some image => image_data image
    end.

Definition stream_write (path fp : string) : M unit :=
  '(image, propname) ← _init_path path true;
  if truthy_str propname
  then raise (ValueError "Wrong call (should be put_content)")
  else
    on_image image "update" (λ image,
      image_update default_purge image
        {| u_name := None; u_properties := None; u_data := Some fp;
           u_purge_props := Some false |}).

Definition exists_ (path : string) : M bool :=
  '(image, propname) ← _init_path path false;
  match image with
  | None => mret false
  | Some image =>
      if negb (truthy_str propname) then mret true
      else
        let propname := default "" propname in
        mret (bool_decide (is_Some (properties (h_fields image)
                                      !! propname)))
  end.

Definition remove (path : string) : M unit :=
  '(image, propname) ← _init_path path false;
  match image with
  | None => mret tt
  | Some image =>
      if truthy_str propname then
        let propname := default "" propname in
        let props := properties (h_fields image) in
        if bool_decide (is_Some (props !! propname)) then
          let props := delete propname props in
          image_update default_purge image
            {| u_name := None; u_properties := Some props;
               u_data := None; u_purge_props := None |}
        else mret tt
      else image_delete image
  end.

Definition get_size (path : string) : M nat :=
  '(image, propname) ← _init_path path false;
  match image with
  | None => raise (OSError ("No such image: '" +:+ path +:+ "'"))
  | Some image => mret (size (h_fields image))
  end.

End Methods.

End GlanceStorageLayers.

(** ** [class GlanceStorage(object)]: the dispatcher *)

Module GlanceStorage.

(** The objects a call can be forwarded to: the instances the
    constructor stores in [_storage_layers], [_storage_tags] and
    [_storage_base]. *)
Inductive Backend : Type :=
| Layers (obj : GlanceStorageLayers.t)
| S3Storage (config : Config)
| LocalStorage (config : Config)
| BaseStorage.

(** The Python values that reach the dispatcher as arguments, or that an
    attribute lookup on a backend gives. *)
Inductive pyval : Type :=
| PNone
| PBool (b : bool)
| PInt (z : Z)
| PStr (s : string)
| PMethod (self : Backend) (name : string)
| PObject (truth invocable : bool) (tag : string).

(** [bool(v)]; a bound method is always true, an arbitrary object
    decides for itself. *)
Definition truthy (v : pyval) : bool :=
  match v with
  | PNone => false
  | PBool b => b
  | PInt z => negb (Z.eqb z 0)
  | PStr s => negb (String.eqb s "")
  | PMethod _ _ => true
  | PObject truth _ _ => truth
  end.

(** [callable(v)] *)
Definition callable (v : pyval) : bool :=
  match v with
  | PMethod _ _ => true
  | PObject _ invocable _ => invocable
  | _ => false
  end.

(** [isinstance(v, basestring)] *)
Definition is_basestring (v : pyval) : bool :=
  match v with
  | PStr _ => true
  | _ => false
  end.

(** What a class gives for an attribute name: a method, which an
    instance lookup binds to the instance, or a plain value. *)
Inductive attr : Type :=
| Method
| Value (v : pyval).

Record t : Type := mk {
  _config : Config;
  _storage_layers : Backend;
  _storage_tags : Backend;
  _storage_base : Backend
}.

Definition __init__ (config : Config) : result t :=
  let _storage_layers := Layers (GlanceStorageLayers.__init__ config) in
  let kind := default "local" (config !! "storage_alternate") in
  let _storage_base := BaseStorage in
  if String.eqb kind "s3" then
    Ok (mk config _storage_layers (S3Storage config) _storage_base)
  else if String.eqb kind "local" then
    Ok (mk config _storage_layers (LocalStorage config) _storage_base)
  else Raise (ValueError ("Not supported storage '" +:+ kind +:+ "'")).

(** What came out of a call through the dispatcher: an exception, the
    call of the attribute it made, with the arguments of that call, or
    the value it returned. *)
Inductive outcome : Type :=
| Raised (e : exn)
| Called (attr : pyval) (args : list pyval) (kwargs : gmap string pyval)
| Returned (v : pyval).

Section Dispatch.
(** The attributes of the backends: those of [S3Storage],
    [LocalStorage] and [Storage] are defined outside this module. *)
Context (class_attr : Backend → string → option attr).
(** [repr] of the argument tuple and of the keyword dictionary. *)
Context (repr_args : list pyval → string).
Context (repr_kwargs : gmap string pyval → string).
Context (self : t).

Definition hasattr (obj : Backend) (name : string) : bool :=
  bool_decide (is_Some (class_attr obj name)).

Definition getattr (obj : Backend) (name : string) : pyval :=
  match class_attr obj name with
  | Some Method => PMethod obj name
  | Some (Value v) => v
  | None => PNone
  end.

Definition _resolve_class_path (method_name : string)
    (args : list pyval) (kwargs : gmap string pyval) : result pyval :=
  let path := PStr "" in
  let path :=
    match kwargs !! "path" with
    | Some p => p
    | None =>
        match args with
        | a :: _ => if is_basestring a then a else path
        | [] => path
        end
    end in
  match path with
  | PStr path =>
      let obj :=
        if startswith path Storage.images then _storage_layers self
        else if startswith path Storage.repositories
             then _storage_tags self
             else _storage_base self in
      if negb (hasattr obj method_name) then Ok PNone
      else Ok (getattr obj method_name)
  | _ => Raise (AttributeError "startswith")
  end.

Definition __getattr__ (name : string)
  : list pyval → gmap string pyval → outcome :=
  λ args kwargs,
    match _resolve_class_path name args kwargs with
    | Raise e => Raised e
    | Ok attr =>
        if negb (truthy attr) then
          Raised (ValueError ("Cannot dispath method " +:+ quoted name
                              +:+ " args: " +:+ repr_args args
                              +:+ ", " +:+ repr_kwargs kwargs))
        else if callable attr then Called attr args kwargs
        else Returned attr
    end.

End Dispatch.

End GlanceStorage.

(** ** The vocabulary of the specification *)

Module Spec.

(** The three namespaces of the path classifier. *)
Inductive Namespace : Type :=
| LayerStore
| AlternateStore
| BaseStore.

(** The classifier in the words of the specification: prefixes are
    matched in order, the image namespace first, then the repository
    namespace, otherwise the base store. *)
Definition classify (path : string) : Namespace :=
  if startswith path "images" then LayerStore
  else if startswith path "repositories" then AlternateStore
  else BaseStore.

(** The path argument of a call: the named [path] argument if there is
    one, otherwise the first positional argument if it is a string;
    [None] when the call names no path. *)
Definition path_argument (args : list GlanceStorage.pyval)
    (kwargs : gmap string GlanceStorage.pyval)
  : option GlanceStorage.pyval :=
  match kwargs !! "path" with
  | Some p => Some p
  | None =>
      match args with
      | GlanceStorage.PStr s :: _ => Some (GlanceStorage.PStr s)
      | _ => None
      end
  end.

(** The path a call is classified by: its path argument, the empty path
    when it has none. *)
Definition call_path (args : list GlanceStorage.pyval)
    (kwargs : gmap string GlanceStorage.pyval) : GlanceStorage.pyval :=
  default (GlanceStorage.PStr "") (path_argument args kwargs).

(** The backend of a dispatcher that stands for a namespace. *)
Definition backend_of (self : GlanceStorage.t) (n : Namespace)
  : GlanceStorage.Backend :=
  match n with
  | LayerStore => GlanceStorage._storage_layers self
  | AlternateStore => GlanceStorage._storage_tags self
  | BaseStore => GlanceStorage._storage_base self
  end.

(** PropertyKey: [meta_<filename>], or [None], the bulk-data sentinel,
    for the reserved layer-data name. *)
Definition PropertyKey (filename : string) : option string :=
  if String.eqb filename "layer" then None
  else Some ("meta_" +:+ filename).

(** DisplayName: [repository:tag], prefixed with [namespace/] unless the
    namespace is the reserved default. *)
Definition DisplayName (namespace repository tag : string) : string :=
  if String.eqb namespace "library" then repository +:+ ":" +:+ tag
  else namespace +:+ "/" +:+ repository +:+ ":" +:+ tag.

(** The filters of a lookup by identifier property. *)
Definition id_filters (image_id : string) : Filters :=
  {| f_disk_format := Some GlanceStorageLayers.disk_format;
     f_container_format := Some GlanceStorageLayers.container_format;
     f_properties := {[ "id" := image_id ]};
     f_name := None |}.

(** The record that stands for [image_id]: the first live one of the
    driver's format whose identifier property is [image_id]. *)
Definition record_of (image_id : string) (st : Store) : option Handle :=
  head (handles_from (id_filters image_id) 0 st).

(** The record a first write to [image_id] creates. *)
Definition fresh_record (image_id : string) : Image :=
  {| disk_format := GlanceStorageLayers.disk_format;
     container_format := GlanceStorageLayers.container_format;
     properties := {[ "id" := image_id ]};
     name := None; size := 0; data := None |}.

(** The live record at position [i] is named [n]. *)
Definition named (st : Store) (i : nat) (n : string) : Prop :=
  ∃ img, st !! i = Some (Some img) ∧ name img = Some n.

(** At most one record holds a given display name. *)
Definition name_unique (st : Store) : Prop :=
  ∀ n i j, named st i n → named st j n → i = j.

(** At most one live record of the driver's format carries a given
    identifier property. *)
Definition id_unique (st : Store) : Prop :=
  ∀ image_id i j imgi imgj,
    st !! i = Some (Some imgi) → st !! j = Some (Some imgj) →
    matches (id_filters image_id) imgi = true →
    matches (id_filters image_id) imgj = true →
    i = j.

(** [img] with its name replaced. *)
Definition with_name (n : option string) (img : Image) : Image :=
  {| disk_format := disk_format img;
     container_format := container_format img;
     properties := properties img;
     name := n; size := size img; data := data img |}.

(** [img] with its properties replaced. *)
Definition with_properties (props : gmap string string) (img : Image)
  : Image :=
  {| disk_format := disk_format img;
     container_format := container_format img;
     properties := props;
     name := name img; size := size img; data := data img |}.

(** The filters of a lookup by name. *)
Definition name_filters (n : string) : Filters :=
  {| f_disk_format := None; f_container_format := None;
     f_properties := ∅; f_name := Some n |}.

(** [img] without its name, if its name is [n]. *)
Definition clear_name (n : string) (img : Image) : Image :=
  if bool_decide (name img = Some n) then with_name None img else img.

(** The store after every holder of the name [n] lost it. *)
Definition evict (n : string) (st : Store) : Store :=
  (λ o : option Image, clear_name n <$> o) <$> st.

End Spec.
Export Spec.

(** ** Concrete inputs *)

Module Examples.

(** A process environment that holds the token, and the layer store of an
    empty configuration. *)
Definition environ : gmap string string := {[ "OS_AUTH_TOKEN" := "secret" ]}.
Definition layers : GlanceStorageLayers.t := GlanceStorageLayers.__init__ ∅.

(** The record of image [abc], with two metadata properties. *)
Definition abc : Image :=
  {| disk_format := "raw"; container_format := "bare";
     properties := {[ "id" := "abc"; "meta_json" := "{}";
                      "meta_checksum" := "sha256:0" ]};
     name := Some "busybox:latest"; size := 0; data := None |}.

(** The record of image [def], without a name. *)
Definition def : Image :=
  {| disk_format := "raw"; container_format := "bare";
     properties := {[ "id" := "def" ]};
     name := None; size := 0; data := None |}.

Definition store : Store := [Some abc; Some def].

(** The attributes of the backends in the examples: the methods and class
    constants of the layer store, and a few attributes for the classes
    defined elsewhere, one of them false in a boolean test. *)
Definition class_attr (obj : GlanceStorage.Backend) (name : string)
  : option GlanceStorage.attr :=
  match obj with
  | GlanceStorage.Layers _ =>
      if bool_decide (name ∈ ["get_content"; "put_content"; "stream_read";
                               "stream_write"; "exists"; "remove";
                               "get_size"])
      then Some GlanceStorage.Method
      else if String.eqb name "disk_format"
           then Some (GlanceStorage.Value (GlanceStorage.PStr "raw"))
           else None
  | GlanceStorage.S3Storage _ | GlanceStorage.LocalStorage _ =>
      if bool_decide (name ∈ ["get_content"; "put_content"; "exists";
                               "remove"])
      then Some GlanceStorage.Method
      else if String.eqb name "supports_ranges"
           then Some (GlanceStorage.Value (GlanceStorage.PBool false))
           else None
  | GlanceStorage.BaseStorage =>
      if String.eqb name "get_content" then Some GlanceStorage.Method
      else None
  end.

Definition repr_args (args : list GlanceStorage.pyval) : string := "(...)".
Definition repr_kwargs (kwargs : gmap string GlanceStorage.pyval)
  : string := "{...}".

(** The dispatcher of a configuration that names no alternate store. *)
Definition dispatcher : GlanceStorage.t :=
  GlanceStorage.mk ∅ (GlanceStorage.Layers layers)
    (GlanceStorage.LocalStorage ∅) GlanceStorage.BaseStorage.

(** A store in which two records carry the identifier [abc]. *)
Definition duplicates : Store := [Some abc; Some def; Some abc].

(** An image of another disk format that carries the identifier [xyz],
    and a store that holds it. *)
Definition foreign : Image :=
  {| disk_format := "qcow2"; container_format := "bare";
     properties := {[ "id" := "xyz" ]};
     name := Some "cirros"; size := 0; data := None |}.

Definition foreign_store : Store := [Some abc; Some foreign].

(** A configuration that selects the object store. *)
Definition s3_config : Config := {[ "storage_alternate" := "s3" ]}.

End Examples.

(** * Properties *)

Arguments String.eqb : simpl never.
Arguments String.append : simpl never.
Arguments String.prefix : simpl never.

(** ** Strings *)

Lemma split_nonempty sep s : split sep s ≠ [].
Proof.
  induction s as [|c r IH]; simpl; [done|].
  destruct (Ascii.eqb c sep); [done|].
  destruct (split sep r); done.
Qed.

Lemma split_no_sep sep s :
  (∀ c, In c (list_ascii_of_string s) → c ≠ sep) → split sep s = [s].
Proof.
  induction s as [|c r IH]; simpl; intros Hs; [done|].
  destruct (Ascii.eqb_spec c sep) as [->|_].
  - exfalso. by apply (Hs sep); [left|].
  - rewrite IH; [done|]. intros d Hd. apply Hs. by right.
Qed.

Lemma split_app sep s r :
  (∀ c, In c (list_ascii_of_string s) → c ≠ sep) →
  split sep (s +:+ String sep r) = s :: split sep r.
Proof.
  induction s as [|c s IH]; simpl; intros Hs.
  - by rewrite Ascii.eqb_refl.
  - destruct (Ascii.eqb_spec c sep) as [->|_].
    + exfalso. by apply (Hs sep); [left|].
    + rewrite IH; [done|]. intros d Hd. apply Hs. by right.
Qed.

(** A path built from the prefix, an identifier and a file name without
    slashes parses back into its three segments. *)
Lemma split_image_path image_id filename :
  (∀ c, In c (list_ascii_of_string image_id) → c ≠ "/"%char) →
  (∀ c, In c (list_ascii_of_string filename) → c ≠ "/"%char) →
  split "/" ("images/" +:+ image_id +:+ "/" +:+ filename)
  = ["images"; image_id; filename].
Proof.
  intros Hi Hf.
  change ("images/" +:+ image_id +:+ "/" +:+ filename)
    with ("images" +:+ String "/" (image_id +:+ String "/" filename)).
  rewrite split_app.
  - rewrite split_app by done. by rewrite split_no_sep.
  - intros c Hc. simpl in Hc.
    repeat destruct Hc as [<-|Hc]; try done.
Qed.

Lemma PropertyKey_truthy filename :
  truthy_str (PropertyKey filename)
  = negb (String.eqb filename "layer").
Proof.
  unfold PropertyKey. by destruct (String.eqb filename "layer").
Qed.

(** ** The image service *)

Lemma handles_from_app f i (st1 st2 : Store) :
  handles_from f i (st1 ++ st2)
  = handles_from f i st1 ++ handles_from f (i + length st1) st2.
Proof.
  revert i. induction st1 as [|o st1 IH]; intros i; simpl.
  - by rewrite Nat.add_0_r.
  - replace (i + S (length st1)) with (S i + length st1) by lia.
    destruct o as [img|]; [destruct (matches f img)|]; simpl;
      by rewrite IH.
Qed.

(** The first handle of a listing is the first live record that passes
    the filters. *)
Lemma head_handles_from_Some f i (st : Store) h :
  head (handles_from f i st) = Some h ↔
  ∃ j img, h = mkHandle (i + j) img ∧ st !! j = Some (Some img)
           ∧ matches f img = true
           ∧ ∀ j' img', j' < j → st !! j' = Some (Some img') →
                        matches f img' = false.
Proof.
  revert i. induction st as [|o st IH]; intros i; simpl.
  - split; [done|]. by intros (j & img & _ & ? & _).
  - assert (head (handles_from f (S i) st) = Some h ↔
            ∃ j img, h = mkHandle (i + S j) img
                     ∧ st !! j = Some (Some img)
                     ∧ matches f img = true
                     ∧ ∀ j' img', j' < j → st !! j' = Some (Some img') →
                                  matches f img' = false) as Hskip.
    { rewrite IH. by setoid_rewrite Nat.add_succ_r. }
    assert ((∀ img, o = Some img → matches f img = false) →
            head (handles_from f (S i) st) = Some h ↔
            ∃ j img, h = mkHandle (i + j) img
                     ∧ (o :: st) !! j = Some (Some img)
                     ∧ matches f img = true
                     ∧ ∀ j' img', j' < j →
                         (o :: st) !! j' = Some (Some img') →
                         matches f img' = false) as Hrest.
    { intros Ho. rewrite Hskip. split.
      - intros (j & img & -> & Hj & Hm & Hmin).
        exists (S j), img. repeat split; try done.
        intros [|j'] img' Hlt Hj'; simpl in Hj'.
        + apply Ho. congruence.
        + apply (Hmin j'); [lia|done].
      - intros ([|j] & img & -> & Hj & Hm & Hmin); simpl in Hj.
        + rewrite (Ho img) in Hm; [done|congruence].
        + exists j, img. repeat split; try done.
          intros j' img' Hlt Hj'. apply (Hmin (S j')); [lia|done]. }
    destruct o as [img0|]; [destruct (matches f img0) eqn:Hm0|].
    + simpl. split.
      * intros [= <-]. exists 0, img0. rewrite Nat.add_0_r.
        repeat split; try done. intros; lia.
      * intros ([|j] & img & -> & Hj & Hm & Hmin); simpl in Hj.
        -- rewrite Nat.add_0_r. congruence.
        -- rewrite (Hmin 0 img0) in Hm0; [done|lia|done].
    + apply Hrest. congruence.
    + apply Hrest. congruence.
Qed.

Lemma head_handles_from_None f i (st : Store) :
  head (handles_from f i st) = None ↔
  ∀ j img, st !! j = Some (Some img) → matches f img = false.
Proof.
  revert i. induction st as [|o st IH]; intros i; simpl.
  - split; [|done]. by intros _ j img.
  - destruct o as [img0|]; [destruct (matches f img0) eqn:Hm0|]; simpl.
    + split; [done|]. intros H. rewrite (H 0 img0) in Hm0; done.
    + rewrite IH. split.
      * intros H [|j] img Hj; simpl in Hj; [congruence|by eapply H].
      * intros H j img Hj. by apply (H (S j)).
    + rewrite IH. split.
      * intros H [|j] img Hj; simpl in Hj; [congruence|by eapply H].
      * intros H j img Hj. by apply (H (S j)).
Qed.

(** A listing is in creation order, one handle per live record that
    passes the filters. *)
Lemma elem_of_handles_from f i (st : Store) h :
  h ∈ handles_from f i st ↔
  ∃ j img, h = mkHandle (i + j) img ∧ st !! j = Some (Some img)
           ∧ matches f img = true.
Proof.
  revert i. induction st as [|o st IH]; intros i; simpl.
  - split; [by intros ?%elem_of_nil|]. by intros (j & img & _ & ? & _).
  - assert (h ∈ handles_from f (S i) st ↔
            ∃ j img, h = mkHandle (i + S j) img
                     ∧ st !! j = Some (Some img)
                     ∧ matches f img = true) as Hskip.
    { rewrite IH. by setoid_rewrite Nat.add_succ_r. }
    destruct o as [img0|]; [destruct (matches f img0) eqn:Hm0|].
    + rewrite elem_of_cons, Hskip. split.
      * intros [->|(j & img & -> & Hj & Hm)].
        -- exists 0, img0. by rewrite Nat.add_0_r.
        -- by exists (S j), img.
      * intros ([|j] & img & -> & Hj & Hm); simpl in Hj.
        -- left. rewrite Nat.add_0_r. congruence.
        -- right. by exists j, img.
    + rewrite Hskip. split.
      * intros (j & img & -> & Hj & Hm). by exists (S j), img.
      * intros ([|j] & img & -> & Hj & Hm); simpl in Hj.
        -- congruence.
        -- by exists j, img.
    + rewrite Hskip. split.
      * intros (j & img & -> & Hj & Hm). by exists (S j), img.
      * intros ([|j] & img & -> & Hj & Hm); simpl in Hj.
        -- congruence.
        -- by exists j, img.
Qed.

Lemma matches_id_filters image_id img :
  matches (id_filters image_id) img = true ↔
  disk_format img = "raw" ∧ container_format img = "bare"
  ∧ properties img !! "id" = Some image_id.
Proof.
  unfold matches, id_filters, opt_matches; simpl.
  rewrite !andb_true_iff, bool_decide_eq_true, !String.eqb_eq.
  rewrite map_singleton_subseteq_l.
  unfold GlanceStorageLayers.disk_format,
    GlanceStorageLayers.container_format.
  intuition congruence.
Qed.

Lemma record_of_Some image_id (st : Store) h :
  record_of image_id st = Some h ↔
  ∃ img, h = mkHandle (h_id h) img ∧ st !! h_id h = Some (Some img)
         ∧ matches (id_filters image_id) img = true
         ∧ ∀ j' img', j' < h_id h → st !! j' = Some (Some img') →
                      matches (id_filters image_id) img' = false.
Proof.
  unfold record_of. rewrite head_handles_from_Some. simpl. split.
  - intros (j & img & -> & ?). by exists img.
  - intros (img & Hh & ?). exists (h_id h), img. by rewrite <-Hh.
Qed.

Lemma record_of_None image_id (st : Store) :
  record_of image_id st = None ↔
  ∀ j img, st !! j = Some (Some img) →
           matches (id_filters image_id) img = false.
Proof. apply head_handles_from_None. Qed.

(** Rewriting the record that stands for an identifier, its format and
    identifier property kept, leaves it the record of that identifier. *)
Lemma record_of_insert image_id (st : Store) h img' :
  record_of image_id st = Some h →
  matches (id_filters image_id) img' = true →
  record_of image_id (<[h_id h := Some img']> st)
  = Some (mkHandle (h_id h) img').
Proof.
  intros (img & Hh & Hj & Hm & Hmin)%record_of_Some Hm'.
  apply record_of_Some. simpl. exists img'. repeat split; try done.
  - apply list_lookup_insert_eq. by eapply lookup_lt_Some.
  - intros j' img'' Hlt. rewrite list_lookup_insert_ne by lia.
    by apply Hmin.
Qed.

(** A record appended for an identifier that had none stands for it. *)
Lemma record_of_create image_id (st : Store) img :
  record_of image_id st = None →
  matches (id_filters image_id) img = true →
  record_of image_id (st ++ [Some img]) = Some (mkHandle (length st) img).
Proof.
  intros Hnone Hm. unfold record_of in *.
  rewrite handles_from_app.
  destruct (handles_from (id_filters image_id) 0 st); [|done].
  simpl. by rewrite Hm.
Qed.

Lemma matches_fresh_record image_id :
  matches (id_filters image_id) (fresh_record image_id) = true.
Proof. apply matches_id_filters. by repeat split. Qed.

(** Under [id_unique], deleting the record of an identifier leaves the
    identifier without a record. *)
Lemma record_of_delete image_id (st : Store) h :
  id_unique st →
  record_of image_id st = Some h →
  record_of image_id (<[h_id h := None]> st) = None.
Proof.
  intros Huniq (img & Hh & Hj & Hm & Hmin)%record_of_Some.
  apply record_of_None. intros j img' Hj'.
  destruct (decide (j = h_id h)) as [->|Hne].
  - rewrite list_lookup_insert_eq in Hj'; [done|by eapply lookup_lt_Some].
  - rewrite list_lookup_insert_ne in Hj' by done.
    destruct (matches (id_filters image_id) img') eqn:Hm'; [|done].
    destruct Hne. by eapply Huniq.
Qed.

(** Deleting the record of an identifier leaves the identifier without a
    record when no other record carries it. *)
Lemma record_of_delete_only image_id (st : Store) h :
  record_of image_id st = Some h →
  (∀ j img, j ≠ h_id h → st !! j = Some (Some img) →
            matches (id_filters image_id) img = false) →
  record_of image_id (<[h_id h := None]> st) = None.
Proof.
  intros (img & Hh & Hj & Hm & Hmin)%record_of_Some Honly.
  apply record_of_None. intros j img' Hj'.
  destruct (decide (j = h_id h)) as [->|Hne].
  - rewrite list_lookup_insert_eq in Hj'; [done|by eapply lookup_lt_Some].
  - rewrite list_lookup_insert_ne in Hj' by done. by eapply Honly.
Qed.

(** Deleting a record leaves an identifier with a record when another
    record carries it. *)
Lemma record_of_delete_other image_id (st : Store) k j img :
  j ≠ k → st !! j = Some (Some img) →
  matches (id_filters image_id) img = true →
  is_Some (record_of image_id (<[k := None]> st)).
Proof.
  intros Hne Hj Hm.
  destruct (record_of image_id (<[k := None]> st)) as [h'|] eqn:Hrec;
    [by eexists|].
  rewrite (proj1 (record_of_None _ _) Hrec j img) in Hm; [done|].
  by rewrite list_lookup_insert_ne.
Qed.

Lemma image_update_live default_purge h u (st : Store) img :
  st !! h_id h = Some (Some img) →
  image_update default_purge h u st
  = (Ok tt, <[h_id h := Some (apply_update default_purge u img)]> st).
Proof. intros Hlive. unfold image_update. by rewrite Hlive. Qed.

Lemma image_delete_live h (st : Store) img :
  st !! h_id h = Some (Some img) →
  image_delete h st = (Ok tt, <[h_id h := None]> st).
Proof. intros Hlive. unfold image_delete. by rewrite Hlive. Qed.

(** The handle of a lookup carries the fields of the record it names. *)
Lemma record_of_live image_id (st : Store) h :
  record_of image_id st = Some h →
  st !! h_id h = Some (Some (h_fields h))
  ∧ matches (id_filters image_id) (h_fields h) = true.
Proof.
  intros (img & Hh & Hj & Hm & _)%record_of_Some.
  rewrite Hh. simpl. done.
Qed.

(** No property key is the identifier property. *)
Lemma meta_key_ne_id filename : "meta_" +:+ filename ≠ "id".
Proof. cbv [String.append]. discriminate. Qed.

(** An update that names no property but metadata keys, or none at all,
    keeps a record among those of its identifier. *)
Lemma matches_apply_update default_purge image_id u img :
  (match u_properties u with
   | Some props =>
       default default_purge (u_purge_props u) = false ∧ props !! "id" = None
       ∨ props !! "id" = Some image_id
   | None => default default_purge (u_purge_props u) = false
   end) →
  matches (id_filters image_id) img = true →
  matches (id_filters image_id) (apply_update default_purge u img) = true.
Proof.
  rewrite !matches_id_filters. intros Hu (Hdf & Hcf & Hid).
  repeat split; try done. simpl.
  destruct (u_properties u) as [props|]; simpl.
  - destruct Hu as [[-> Hnone]|Hsome].
    + rewrite lookup_union_r; done.
    + destruct (default default_purge (u_purge_props u)); [done|].
      by apply lookup_union_Some_l.
  - rewrite Hu. by rewrite (left_id_L ∅ (∪)).
Qed.

Lemma with_properties_id img : with_properties (properties img) img = img.
Proof. by destruct img. Qed.

Lemma matches_name_filters n img :
  matches (name_filters n) img = bool_decide (name img = Some n).
Proof.
  unfold matches, name_filters, opt_matches. simpl.
  rewrite bool_decide_eq_true_2; [done|]. apply map_empty_subseteq.
Qed.

Lemma apply_update_name default_purge n img :
  apply_update default_purge
    {| u_name := Some n; u_properties := None; u_data := None;
       u_purge_props := Some false |} img
  = with_name n img.
Proof.
  unfold apply_update, with_name. simpl. by rewrite (left_id_L ∅ (∪)).
Qed.

(** Clearing the name of each listed holder of [n], in turn, evicts [n]
    from the store; [pre] is the part of the store already gone through. *)
Lemma for_each_clear_name default_purge n (pre st : Store) :
  for_each (handles_from (name_filters n) (length pre) st)
    (λ image, image_update default_purge image
       {| u_name := Some None; u_properties := None; u_data := None;
          u_purge_props := Some false |})
    (pre ++ st)
  = (Ok tt, pre ++ evict n st).
Proof.
  revert pre. induction st as [|o st IH]; intros pre; [done|].
  assert (∀ o', for_each (handles_from (name_filters n) (S (length pre)) st)
                  (λ image, image_update default_purge image
                     {| u_name := Some None; u_properties := None;
                        u_data := None; u_purge_props := Some false |})
                  (pre ++ o' :: st)
                = (Ok tt, pre ++ o' :: evict n st)) as Hrest.
  { intros o'. specialize (IH (pre ++ [o'])).
    rewrite length_app, Nat.add_1_r in IH. simpl in IH.
    by rewrite <-!(assoc_L (++)) in IH. }
  simpl. destruct o as [img|]; [|apply Hrest].
  rewrite matches_name_filters.
  change (clear_name n <$> Some img) with (Some (clear_name n img)).
  unfold clear_name.
  destruct (bool_decide (name img = Some n)); [|apply Hrest].
  simpl. unfold mbind, M_bind, bind.
  unfold image_update at 1. simpl.
  rewrite list_lookup_middle by done.
  rewrite insert_app_r_alt, Nat.sub_diag by done. simpl.
  rewrite apply_update_name. apply Hrest.
Qed.

Lemma evict_lookup n (st : Store) j :
  evict n st !! j = (λ o : option Image, clear_name n <$> o) <$> st !! j.
Proof. unfold evict. apply list_lookup_fmap. Qed.

Lemma evict_length n (st : Store) : length (evict n st) = length st.
Proof. unfold evict. apply length_fmap. Qed.

Lemma with_name_clear_name m n img :
  with_name m (clear_name n img) = with_name m img.
Proof. unfold clear_name. by destruct (bool_decide _), img. Qed.

(** A name that survives an eviction is another name, held before. *)
Lemma name_clear_name n m img :
  name (clear_name n img) = Some m → m ≠ n ∧ name img = Some m.
Proof.
  unfold clear_name. destruct (bool_decide (name img = Some n)) eqn:Hb.
  - by destruct img.
  - apply bool_decide_eq_false in Hb. intros Hm. split; [|done]. congruence.
Qed.

Lemma named_evict n m (st : Store) j :
  named (evict n st) j m → m ≠ n ∧ named st j m.
Proof.
  intros (img & Hj & Hm). rewrite evict_lookup in Hj.
  destruct (st !! j) as [[img0|]|] eqn:Hst; simplify_eq/=.
  apply name_clear_name in Hm as [? ?]. split; [done|]. by exists img0.
Qed.

(** An update that carries the purge flag does not depend on what the
    service does by default. *)
Lemma image_update_flagged dp dp' h u (st : Store) :
  is_Some (u_purge_props u) →
  image_update dp h u st = image_update dp' h u st.
Proof.
  intros [b Hb]. unfold image_update, apply_update. by rewrite Hb.
Qed.

Lemma for_each_ext {A} (l : list A) (f g : A → M unit) (st : Store) :
  (∀ x st, f x st = g x st) → for_each l f st = for_each l g st.
Proof.
  intros Hfg. revert st. induction l as [|x l IH]; intros st; [done|].
  simpl. unfold mbind, M_bind, bind. rewrite Hfg.
  destruct (g x st) as [[[]|e] st']; [apply IH|done].
Qed.

Lemma bind_ext {A B} (m : M A) (k k' : A → M B) (st : Store) :
  (∀ a st, k a st = k' a st) → (m ≫= k) st = (m ≫= k') st.
Proof.
  intros Hk. unfold mbind, M_bind, bind.
  destruct (m st) as [[a|e] st']; [apply Hk|done].
Qed.

(** *** One record per identifier *)

(** Whether a record stands for an identifier depends on its formats and
    on its identifier property only. *)
Lemma matches_id_filters_ext image_id a b :
  disk_format a = disk_format b →
  container_format a = container_format b →
  properties a !! "id" = properties b !! "id" →
  matches (id_filters image_id) a = matches (id_filters image_id) b.
Proof.
  intros Hdf Hcf Hid. apply eq_true_iff_eq.
  rewrite !matches_id_filters. by rewrite Hdf, Hcf, Hid.
Qed.

Lemma id_unique_nil : id_unique [].
Proof. intros image_id i j imgi imgj Hi. by rewrite lookup_nil in Hi. Qed.

Lemma id_unique_insert (st : Store) k img img' :
  id_unique st →
  st !! k = Some (Some img) →
  (∀ image_id, matches (id_filters image_id) img'
               = matches (id_filters image_id) img) →
  id_unique (<[k := Some img']> st).
Proof.
  intros Huniq Hk Hsame image_id i j imgi imgj Hi Hj Hmi Hmj.
  assert (∀ n imgn, <[k := Some img']> st !! n = Some (Some imgn) →
                    matches (id_filters image_id) imgn = true →
                    ∃ old, st !! n = Some (Some old)
                           ∧ matches (id_filters image_id) old = true)
    as Hback.
  { intros n imgn Hn Hmn. destruct (decide (n = k)) as [->|Hne].
    - rewrite list_lookup_insert_eq in Hn by by eapply lookup_lt_Some.
      injection Hn as <-. exists img. by rewrite <-Hsame.
    - rewrite list_lookup_insert_ne in Hn by done. by exists imgn. }
  destruct (Hback _ _ Hi Hmi) as (oi & Hoi & Hmoi).
  destruct (Hback _ _ Hj Hmj) as (oj & Hoj & Hmoj).
  by eapply Huniq.
Qed.

Lemma id_unique_delete (st : Store) k :
  id_unique st → id_unique (<[k := None]> st).
Proof.
  intros Huniq image_id i j imgi imgj Hi Hj Hmi Hmj.
  assert (∀ n imgn, <[k := None]> st !! n = Some (Some imgn) →
                    st !! n = Some (Some imgn)) as Hback.
  { intros n imgn Hn. destruct (decide (n = k)) as [->|Hne].
    - destruct (decide (k < length st)).
      + by rewrite list_lookup_insert_eq in Hn.
      + by rewrite list_insert_ge in Hn by lia.
    - by rewrite list_lookup_insert_ne in Hn. }
  eapply Huniq; eauto.
Qed.

Lemma id_unique_create (st : Store) image_id img :
  id_unique st →
  record_of image_id st = None →
  (∀ image_id', matches (id_filters image_id') img = true →
                image_id' = image_id) →
  id_unique (st ++ [Some img]).
Proof.
  intros Huniq Hnone Honly image_id' i j imgi imgj Hi Hj Hmi Hmj.
  assert (∀ n imgn, (st ++ [Some img]) !! n = Some (Some imgn) →
                    matches (id_filters image_id') imgn = true →
                    n < length st → st !! n = Some (Some imgn)) as Hold.
  { intros n imgn Hn _ Hlt. by rewrite lookup_app_l in Hn. }
  assert (∀ n imgn, (st ++ [Some img]) !! n = Some (Some imgn) →
                    matches (id_filters image_id') imgn = true →
                    ¬ n < length st → n = length st ∧ image_id' = image_id)
    as Hnew.
  { intros n imgn Hn Hmn Hge. rewrite lookup_app_r in Hn by lia.
    destruct (n - length st) as [|d] eqn:Hd; [|done].
    injection Hn as <-. split; [lia|]. by apply Honly. }
  pose proof (proj1 (record_of_None _ _) Hnone) as Hfree.
  destruct (decide (i < length st)) as [Hil|Hil],
           (decide (j < length st)) as [Hjl|Hjl].
  - eapply Huniq; eauto.
  - destruct (Hnew _ _ Hj Hmj Hjl) as [_ ->].
    by rewrite (Hfree _ _ (Hold _ _ Hi Hmi Hil)) in Hmi.
  - destruct (Hnew _ _ Hi Hmi Hil) as [_ ->].
    by rewrite (Hfree _ _ (Hold _ _ Hj Hmj Hjl)) in Hmj.
  - destruct (Hnew _ _ Hi Hmi Hil) as [-> _].
    by destruct (Hnew _ _ Hj Hmj Hjl) as [-> _].
Qed.

Lemma matches_fresh_record_inv image_id image_id' :
  matches (id_filters image_id') (fresh_record image_id) = true →
  image_id' = image_id.
Proof.
  intros (_ & _ & Hid)%matches_id_filters. simpl in Hid.
  rewrite lookup_singleton_eq in Hid. congruence.
Qed.

Lemma id_unique_evict n (st : Store) : id_unique st → id_unique (evict n st).
Proof.
  intros Huniq image_id i j imgi imgj Hi Hj Hmi Hmj.
  assert (∀ k imgk, evict n st !! k = Some (Some imgk) →
                    matches (id_filters image_id) imgk = true →
                    ∃ old, st !! k = Some (Some old)
                           ∧ matches (id_filters image_id) old = true)
    as Hback.
  { intros k imgk Hk Hmk. rewrite evict_lookup in Hk.
    destruct (st !! k) as [[old|]|]; simplify_eq/=.
    exists old. split; [done|]. rewrite <-Hmk.
    unfold clear_name. by destruct (bool_decide _). }
  destruct (Hback _ _ Hi Hmi) as (oi & Hoi & Hmoi).
  destruct (Hback _ _ Hj Hmj) as (oj & Hoj & Hmoj).
  by eapply Huniq.
Qed.

(** An update that leaves the identifier property as it is keeps the
    record's identifier. *)
Lemma id_unique_image_update default_purge h u (st : Store) :
  id_unique st →
  (∀ img, st !! h_id h = Some (Some img) →
          properties (apply_update default_purge u img) !! "id"
          = properties img !! "id") →
  id_unique (snd (image_update default_purge h u st)).
Proof.
  intros Huniq Hid. unfold image_update.
  destruct (st !! h_id h) as [[img|]|] eqn:Hlive; [|done..]. simpl.
  apply (id_unique_insert _ _ img); [done..|].
  intros image_id. apply matches_id_filters_ext; [done..|]. by apply Hid.
Qed.

(** ** The layer store *)

Section LayerStore.
Context (default_purge : bool).
Context (environ : gmap string string).
Context (self : GlanceStorageLayers.t).

Import GlanceStorageLayers.

Local Abbreviation _init_path := (_init_path environ self).
Local Abbreviation get_content := (get_content environ self).
Local Abbreviation put_content := (put_content default_purge environ self).
Local Abbreviation exists_ := (exists_ environ self).
Local Abbreviation remove := (remove default_purge environ self).

Lemma find_image_by_id_record_of glance image_id st :
  _find_image_by_id glance image_id st = (Ok (record_of image_id st), st).
Proof.
  unfold _find_image_by_id, record_of, images_list. run.
  fold (id_filters image_id).
  by destruct (handles_from (id_filters image_id) 0 st).
Qed.

Lemma parts_shape (parts : list string) :
  length parts = 3 → parts = [parts !!! 0; parts !!! 1; parts !!! 2].
Proof. by destruct parts as [|a [|b [|c [|d r]]]]. Qed.

(** What [_init_path] does, case by case: the shape of the path, then the
    client, then the lookup and the creation. *)
Lemma init_path_unfold path create st :
  _init_path path create st =
    let parts := split "/" path in
    if negb (Nat.eqb (length parts) 3)
       || negb (String.eqb (parts !!! 0) Storage.images)
    then (Raise (ValueError ("Invalid path: " +:+ path)), st)
    else
      match environ !! "OS_AUTH_TOKEN" with
      | None => (Raise (KeyError "OS_AUTH_TOKEN"), st)
      | Some _ =>
          match record_of (parts !!! 1) st with
          | Some h => (Ok (Some h, PropertyKey (parts !!! 2)), st)
          | None =>
              if create then
                (Ok (Some (mkHandle (length st) (fresh_record (parts !!! 1))),
                     PropertyKey (parts !!! 2)),
                 st ++ [Some (fresh_record (parts !!! 1))])
              else (Ok (None, PropertyKey (parts !!! 2)), st)
          end
      end.
Proof.
  unfold GlanceStorageLayers._init_path, _create_glance_client. cbv zeta.
  destruct (negb (Nat.eqb (length (split "/" path)) 3)
            || negb (String.eqb (split "/" path !!! 0) Storage.images));
    [done|].
  run. destruct (environ !! "OS_AUTH_TOKEN"); [|done]. simpl.
  rewrite find_image_by_id_record_of.
  destruct (record_of (split "/" path !!! 1) st); [done|].
  by destruct create.
Qed.

Lemma shape_ok_iff (parts : list string) :
  negb (Nat.eqb (length parts) 3)
  || negb (String.eqb (parts !!! 0) Storage.images) = false
  ↔ length parts = 3 ∧ parts !!! 0 = Storage.images.
Proof.
  rewrite orb_false_iff, !negb_false_iff, Nat.eqb_eq, String.eqb_eq. done.
Qed.

(** A path of exactly three segments under the image prefix is parsed,
    when the client can be built, into the record of its identifier,
    created if asked for, and the property key of its file name. *)
Lemma init_path_parsed path create image_id filename tok st :
  environ !! "OS_AUTH_TOKEN" = Some tok →
  split "/" path = ["images"; image_id; filename] →
  _init_path path create st =
    match record_of image_id st with
    | Some h => (Ok (Some h, PropertyKey filename), st)
    | None =>
        if create then
          (Ok (Some (mkHandle (length st) (fresh_record image_id)),
               PropertyKey filename),
           st ++ [Some (fresh_record image_id)])
        else (Ok (None, PropertyKey filename), st)
    end.
Proof.
  intros Htok Hsplit. rewrite init_path_unfold, Hsplit, Htok. done.
Qed.

(** A successful parse without creation tells the shape of the path, that
    the client could be built, and leaves the store as it was. *)
Lemma init_path_lookup_inv path image propname st st' :
  _init_path path false st = (Ok (image, propname), st') →
  ∃ image_id filename tok,
    environ !! "OS_AUTH_TOKEN" = Some tok
    ∧ split "/" path = ["images"; image_id; filename]
    ∧ image = record_of image_id st
    ∧ propname = PropertyKey filename
    ∧ st' = st.
Proof.
  rewrite init_path_unfold. cbv zeta.
  destruct (negb (Nat.eqb (length (split "/" path)) 3)
            || negb (String.eqb (split "/" path !!! 0) Storage.images))
    eqn:Hshape; [done|].
  apply shape_ok_iff in Hshape as [Hlen Hfst].
  destruct (environ !! "OS_AUTH_TOKEN") as [tok|] eqn:Htok; [|done].
  intros Hres.
  exists (split "/" path !!! 1), (split "/" path !!! 2), tok.
  split; [done|]. split.
  { rewrite (parts_shape _ Hlen) at 1. by rewrite Hfst. }
  destruct (record_of (split "/" path !!! 1) st); by inversion Hres.
Qed.

(** *** Path parsing *)

(** C6: [_init_path] raises the invalid-path error unless the path has
    exactly three segments separated by slashes and the first is the image
    prefix.  For such a path it raises no invalid-path error, it succeeds
    whenever the client can be built, and every success returns the
    property key of the third segment: [meta_<filename>], except for the
    reserved name [layer], for which it returns [None], the bulk-data
    sentinel.  So a parsed path has a property key exactly when it does not
    select the bulk data. *)
Theorem init_path_property_key path create st :
  let parts := split "/" path in
  let filename := parts !!! 2 in
  (¬ (length parts = 3 ∧ parts !!! 0 = Storage.images) →
   _init_path path create st
   = (Raise (ValueError ("Invalid path: " +:+ path)), st))
  ∧ (length parts = 3 ∧ parts !!! 0 = Storage.images →
     (∀ msg st', _init_path path create st ≠ (Raise (ValueError msg), st'))
     ∧ (is_Some (environ !! "OS_AUTH_TOKEN") →
        ∃ image st',
          _init_path path create st = (Ok (image, PropertyKey filename), st'))
     ∧ ∀ image propname st',
         _init_path path create st = (Ok (image, propname), st') →
         (filename ≠ "layer" → propname = Some ("meta_" +:+ filename))
         ∧ (filename = "layer" → propname = None)
         ∧ (is_Some propname ↔ filename ≠ "layer")).
Proof.
  cbv zeta. rewrite init_path_unfold. cbv zeta.
  destruct (negb (Nat.eqb (length (split "/" path)) 3)
            || negb (String.eqb (split "/" path !!! 0) Storage.images))
    eqn:Hshape.
  - split; [done|]. intros Hok%shape_ok_iff. congruence.
  - split; [intros []; by apply shape_ok_iff|]. intros _.
    assert (∀ propname,
              propname = PropertyKey (split "/" path !!! 2) →
              (split "/" path !!! 2 ≠ "layer" →
               propname = Some ("meta_" +:+ split "/" path !!! 2))
              ∧ (split "/" path !!! 2 = "layer" → propname = None)
              ∧ (is_Some propname ↔ split "/" path !!! 2 ≠ "layer"))
      as Hkey.
    { intros propname ->. unfold PropertyKey.
      destruct (String.eqb_spec (split "/" path !!! 2) "layer") as [->|Hne].
      - repeat split; try done; by intros [? ?].
      - by repeat split. }
    destruct (environ !! "OS_AUTH_TOKEN") as [tok|].
    + destruct (record_of (split "/" path !!! 1) st) as [h|];
        [|destruct create]; (split; [done|]);
        (split; [intros _; by eexists _, _|]);
        intros image propname st' [= <- <- <-]; by apply Hkey.
    + split; [done|]. split; [by intros [? ?]|]. done.
Qed.

(** *** Reading a property *)

(** C5: for a path that path parsing accepts, [get_content] raises the
    usage error exactly when the path selects the bulk data, that is when
    its file name is the reserved [layer]; it raises the not-found error
    exactly when the path names a property and either no record stands for
    the identifier or that record lacks the property; otherwise it returns
    the value of the property.  In every case the store is left as it was:
    no record is created. *)
Theorem get_content_result path image propname st st0 :
  _init_path path false st = (Ok (image, propname), st0) →
  let r := get_content path st in
  let parts := split "/" path in
  snd r = st
  ∧ image = record_of (parts !!! 1) st
  ∧ (fst r = Raise (ValueError "Wrong call (should be stream_read)")
     ↔ propname = None)
  ∧ (propname = None ↔ parts !!! 2 = "layer")
  ∧ (fst r = Raise (IOError ("No such image " +:+ path))
     ↔ ∃ key, propname = Some key
              ∧ (image = None
                 ∨ ∃ h, image = Some h
                        ∧ properties (h_fields h) !! key = None))
  ∧ (∀ key h content,
       propname = Some key → image = Some h →
       properties (h_fields h) !! key = Some content →
       fst r = Ok content).
Proof.
  intros Hinit. cbv zeta.
  pose proof Hinit as
    (image_id & filename & tok & Htok & Hsplit & -> & -> & ->)
      %init_path_lookup_inv.
  unfold GlanceStorageLayers.get_content. run. rewrite Hinit.
  rewrite PropertyKey_truthy, Hsplit. simpl. unfold PropertyKey.
  destruct (String.eqb_spec filename "layer") as [->|Hne]; simpl.
  - repeat split; try done. by intros (key & ? & _).
  - destruct (record_of image_id st) as [h|]; simpl.
    + destruct (properties (h_fields h) !! ("meta_" +:+ filename))
        as [content|] eqn:Hprop; simpl.
      * repeat split; try done.
        -- intros (key & [= <-] & [?|(h' & [= <-] & ?)]); congruence.
        -- intros key h' content' [= <-] [= <-]. congruence.
      * repeat split; try done.
        -- intros _. eexists. split; [done|]. right. by eexists.
        -- intros key h' content' [= <-] [= <-]. congruence.
    + repeat split; try done.
      intros _. eexists. split; [done|]. by left.
Qed.

(** *** Writing a property *)

(** What [put_content] leaves in the store for a metadata path. *)
Lemma put_content_run path image_id filename content tok st :
  environ !! "OS_AUTH_TOKEN" = Some tok →
  split "/" path = ["images"; image_id; filename] →
  filename ≠ "layer" →
  let u := {| u_name := None;
              u_properties := Some {[ "meta_" +:+ filename := content ]};
              u_data := None; u_purge_props := Some false |} in
  put_content path content st =
    match record_of image_id st with
    | Some h =>
        (Ok tt,
         <[h_id h := Some (apply_update default_purge u (h_fields h))]> st)
    | None =>
        (Ok tt,
         st ++ [Some (apply_update default_purge u (fresh_record image_id))])
    end.
Proof.
  intros Htok Hsplit Hne. cbv zeta.
  unfold GlanceStorageLayers.put_content. run.
  rewrite (init_path_parsed _ _ _ _ _ _ Htok Hsplit).
  assert (truthy_str (PropertyKey filename) = true) as Htruthy.
  { rewrite PropertyKey_truthy. by apply negb_true_iff, String.eqb_neq. }
  assert (PropertyKey filename = Some ("meta_" +:+ filename)) as Hkey.
  { unfold PropertyKey. by apply String.eqb_neq in Hne as ->. }
  destruct (record_of image_id st) as [h|] eqn:Hrec.
  - rewrite Htruthy, Hkey. simpl.
    apply record_of_live in Hrec as [Hlive _].
    by rewrite (image_update_live _ _ _ _ _ Hlive).
  - rewrite Htruthy, Hkey. simpl.
    unfold image_update. simpl.
    rewrite lookup_app_r, Nat.sub_diag by done. simpl.
    rewrite insert_app_r_alt, Nat.sub_diag by done. done.
Qed.

(** What [get_content] answers for a metadata path whose record holds
    the property. *)
Lemma get_content_run path image_id filename content tok h st :
  environ !! "OS_AUTH_TOKEN" = Some tok →
  split "/" path = ["images"; image_id; filename] →
  filename ≠ "layer" →
  record_of image_id st = Some h →
  properties (h_fields h) !! ("meta_" +:+ filename) = Some content →
  get_content path st = (Ok content, st).
Proof.
  intros Htok Hsplit Hne Hrec Hprop.
  unfold GlanceStorageLayers.get_content. run.
  rewrite (init_path_parsed _ _ _ _ _ _ Htok Hsplit), Hrec.
  rewrite PropertyKey_truthy. unfold PropertyKey.
  apply String.eqb_neq in Hne as ->. simpl. by rewrite Hprop.
Qed.

(** C2: for every path of the image namespace whose file name is a
    metadata name, and every content, [put_content] succeeds and a
    [get_content] of the same path then returns that content unchanged.
    If a record stood for the identifier before, it is the same record
    afterwards and each of its other properties has the value it had; the
    other records are as they were. *)
Theorem put_then_get_content path image_id filename content tok st :
  environ !! "OS_AUTH_TOKEN" = Some tok →
  split "/" path = ["images"; image_id; filename] →
  filename ≠ "layer" →
  ∃ st',
    put_content path content st = (Ok tt, st')
    ∧ get_content path st' = (Ok content, st')
    ∧ ∀ h, record_of image_id st = Some h →
        (∃ img', record_of image_id st' = Some (mkHandle (h_id h) img')
                 ∧ ∀ key, key ≠ "meta_" +:+ filename →
                     properties img' !! key = properties (h_fields h) !! key)
        ∧ ∀ j, j ≠ h_id h → st' !! j = st !! j.
Proof.
  intros Htok Hsplit Hne.
  rewrite (put_content_run _ _ _ content _ st Htok Hsplit Hne). cbv zeta.
  set (u := {| u_name := None;
               u_properties := Some {[ "meta_" +:+ filename := content ]};
               u_data := None; u_purge_props := Some false |}).
  assert (∀ img, matches (id_filters image_id) img = true →
                 matches (id_filters image_id)
                   (apply_update default_purge u img) = true) as Hkeep.
  { intros img. apply matches_apply_update. simpl. left. split; [done|].
    apply lookup_singleton_ne, meta_key_ne_id. }
  assert (∀ img, properties (apply_update default_purge u img)
                 !! ("meta_" +:+ filename) = Some content) as Hwritten.
  { intros img. simpl. apply lookup_union_Some_l, lookup_singleton_eq. }
  destruct (record_of image_id st) as [h|] eqn:Hrec.
  - pose proof (record_of_live _ _ _ Hrec) as [Hlive Hm].
    pose proof (record_of_insert _ _ _ _ Hrec (Hkeep _ Hm)) as Hrec'.
    eexists. split; [done|]. split.
    + apply (get_content_run _ _ _ _ _ _ _ Htok Hsplit Hne Hrec'), Hwritten.
    + intros ? [= <-]. split.
      * eexists. split; [done|]. intros key Hkey. simpl.
        rewrite lookup_union_r; [done|]. by apply lookup_singleton_ne.
      * intros j Hj. by apply list_lookup_insert_ne.
  - pose proof (record_of_create _ _ _ Hrec
                  (Hkeep _ (matches_fresh_record image_id))) as Hrec'.
    eexists. split; [done|]. split; [|done].
    apply (get_content_run _ _ _ _ _ _ _ Htok Hsplit Hne Hrec'), Hwritten.
Qed.

(** *** Removing *)

(** What [remove] leaves in the store for a parsed path. *)
Lemma remove_run path image_id filename tok st :
  environ !! "OS_AUTH_TOKEN" = Some tok →
  split "/" path = ["images"; image_id; filename] →
  remove path st =
    match record_of image_id st with
    | None => (Ok tt, st)
    | Some h =>
        if String.eqb filename "layer" then (Ok tt, <[h_id h := None]> st)
        else
          let key := "meta_" +:+ filename in
          let props := properties (h_fields h) in
          if bool_decide (is_Some (props !! key)) then
            image_update default_purge h
              {| u_name := None; u_properties := Some (delete key props);
                 u_data := None; u_purge_props := None |} st
          else (Ok tt, st)
    end.
Proof.
  intros Htok Hsplit. unfold GlanceStorageLayers.remove. run.
  rewrite (init_path_parsed _ _ _ _ _ _ Htok Hsplit).
  destruct (record_of image_id st) as [h|] eqn:Hrec; [|done].
  rewrite PropertyKey_truthy. unfold PropertyKey.
  destruct (String.eqb filename "layer"); simpl.
  - apply record_of_live in Hrec as [Hlive _].
    by rewrite (image_delete_live _ _ _ Hlive).
  - by destruct (bool_decide _).
Qed.

(** What [exists] answers for a parsed path. *)
Lemma exists_run path image_id filename tok st :
  environ !! "OS_AUTH_TOKEN" = Some tok →
  split "/" path = ["images"; image_id; filename] →
  exists_ path st =
    (Ok match record_of image_id st with
        | None => false
        | Some h =>
            if String.eqb filename "layer" then true
            else bool_decide (is_Some (properties (h_fields h)
                                         !! ("meta_" +:+ filename)))
        end, st).
Proof.
  intros Htok Hsplit. unfold GlanceStorageLayers.exists_. run.
  rewrite (init_path_parsed _ _ _ _ _ _ Htok Hsplit).
  destruct (record_of image_id st) as [h|]; [|done].
  rewrite PropertyKey_truthy. unfold PropertyKey.
  by destruct (String.eqb filename "layer").
Qed.

(** C4, as the code has it: for every path of the image namespace,
    [remove] succeeds and
    - changes nothing when no record stands for the identifier;
    - touches no record but the one that stands for the identifier, the
      first one the lookup finds;
    - for a property path, changes nothing when the record lacks the
      property, and otherwise, the service purging by default the
      properties an update leaves out, deletes that property alone: the
      record stays, with its other properties and fields;
    - for the bulk-data path, deletes that one record.  [exists] is then
      false for every path of the identifier when no other record carries
      the identifier, and still true for the removed path when another
      record does. *)
Theorem remove_effect path image_id filename tok st :
  environ !! "OS_AUTH_TOKEN" = Some tok →
  split "/" path = ["images"; image_id; filename] →
  ∃ st',
    remove path st = (Ok tt, st')
    ∧ match record_of image_id st with
      | None => st' = st
      | Some h =>
          let key := "meta_" +:+ filename in
          let props := properties (h_fields h) in
          (∀ j, j ≠ h_id h → st' !! j = st !! j)
          ∧ if decide (filename = "layer") then
              st' !! h_id h = Some None
              ∧ ((∀ j img, j ≠ h_id h → st !! j = Some (Some img) →
                           matches (id_filters image_id) img = false) →
                 ∀ path' filename',
                   split "/" path' = ["images"; image_id; filename'] →
                   exists_ path' st' = (Ok false, st'))
              ∧ (∀ j img, j ≠ h_id h → st !! j = Some (Some img) →
                          matches (id_filters image_id) img = true →
                          exists_ path st' = (Ok true, st'))
            else
              (props !! key = None → st' = st)
              ∧ (default_purge = true →
                 st' !! h_id h
                 = Some (Some (with_properties (delete key props)
                                 (h_fields h))))
      end.
Proof.
  intros Htok Hsplit. rewrite (remove_run _ _ _ _ st Htok Hsplit).
  destruct (record_of image_id st) as [h|] eqn:Hrec; [|by eexists].
  pose proof (record_of_live _ _ _ Hrec) as [Hlive Hm]. cbv zeta.
  destruct (decide (filename = "layer")) as [->|Hne].
  - rewrite String.eqb_refl. eexists. split; [done|].
    split; [|split; [|split]].
    + intros j Hj. by apply list_lookup_insert_ne.
    + apply list_lookup_insert_eq. by eapply lookup_lt_Some.
    + intros Honly path' filename' Hsplit'.
      rewrite (exists_run _ _ _ _ _ Htok Hsplit').
      by rewrite (record_of_delete_only _ _ _ Hrec Honly).
    + intros j img Hj Hjlive Hjm.
      rewrite (exists_run _ _ _ _ _ Htok Hsplit).
      by destruct (record_of_delete_other image_id st (h_id h) j img
                     Hj Hjlive Hjm) as [h' ->].
  - apply String.eqb_neq in Hne as ->.
    destruct (properties (h_fields h) !! ("meta_" +:+ filename))
      as [v|] eqn:Hprop.
    + rewrite bool_decide_eq_true_2 by by eexists.
      rewrite (image_update_live _ _ _ _ _ Hlive).
      eexists. split; [done|]. split; [|split].
      * intros j Hj. by apply list_lookup_insert_ne.
      * done.
      * intros ->. rewrite list_lookup_insert_eq; [done|].
        by eapply lookup_lt_Some.
    + rewrite bool_decide_eq_false_2 by by intros [? ?].
      eexists. split; [done|]. split; [done|]. split; [done|].
      intros _. rewrite Hlive, delete_id by done.
      by rewrite with_properties_id.
Qed.

(** *** The tag handlers *)

Lemma clear_images_name_run glance n st :
  _clear_images_name default_purge glance n st = (Ok tt, evict n st).
Proof.
  unfold _clear_images_name, images_list. run.
  apply (for_each_clear_name default_purge n [] st).
Qed.

(** What [_handler_tag_created] leaves in the store. *)
Lemma handler_tag_created_run {S} (sender : S)
    namespace repository tag value tok st :
  environ !! "OS_AUTH_TOKEN" = Some tok →
  _handler_tag_created default_purge environ self sender
    namespace repository tag value st =
    match record_of value st with
    | None => (Ok tt, st)
    | Some h =>
        let display := DisplayName namespace repository tag in
        (Ok tt,
         <[h_id h := Some (with_name (Some display) (h_fields h))]>
           (evict display st))
    end.
Proof.
  intros Htok. unfold _handler_tag_created, _create_glance_client.
  rewrite Htok. run. rewrite find_image_by_id_record_of.
  destruct (record_of value st) as [h|] eqn:Hrec; [|done].
  assert ((if negb (String.eqb namespace "library")
           then namespace +:+ "/" +:+ repository +:+ ":" +:+ tag
           else repository +:+ ":" +:+ tag)
          = DisplayName namespace repository tag) as ->.
  { unfold DisplayName. by destruct (String.eqb namespace "library"). }
  rewrite clear_images_name_run.
  apply record_of_live in Hrec as [Hlive _].
  erewrite image_update_live;
    [|by rewrite evict_lookup, Hlive].
  by rewrite apply_update_name, with_name_clear_name.
Qed.

(** C3: a tag-created event whose image identifier has no record changes
    nothing and raises nothing.  Otherwise the handler computes the display
    name [repository:tag], prefixed with [namespace/] unless the namespace
    is [library], takes that name from every record that holds it and gives
    it to the record of the identifier: no record is created, properties
    are untouched, exactly that record holds the display name afterwards,
    and if no name had two holders before, none has afterwards. *)
Theorem handler_tag_created_effect {S} (sender : S)
    namespace repository tag value tok st :
  environ !! "OS_AUTH_TOKEN" = Some tok →
  let display := DisplayName namespace repository tag in
  ∃ st',
    _handler_tag_created default_purge environ self sender
      namespace repository tag value st = (Ok tt, st')
    ∧ match record_of value st with
      | None => st' = st
      | Some h =>
          st' = <[h_id h := Some (with_name (Some display) (h_fields h))]>
                  (evict display st)
          ∧ length st' = length st
          ∧ named st' (h_id h) display
          ∧ (∀ j, named st' j display → j = h_id h)
          ∧ (∀ j img, j ≠ h_id h → st !! j = Some (Some img) →
               st' !! j = Some (Some (clear_name display img)))
          ∧ (name_unique st → name_unique st')
      end.
Proof.
  intros Htok display.
  rewrite (handler_tag_created_run sender _ _ _ _ _ st Htok).
  destruct (record_of value st) as [h|] eqn:Hrec; [|by eexists].
  fold display. eexists. split; [done|].
  pose proof (record_of_live _ _ _ Hrec) as [Hlive _].
  assert (h_id h < length (evict display st)) as Hlt.
  { rewrite evict_length. by eapply lookup_lt_Some. }
  assert (∀ j, named (<[h_id h := Some (with_name (Some display)
                                          (h_fields h))]>
                        (evict display st)) j display → j = h_id h) as Honly.
  { intros j (img & Hj & Hn).
    destruct (decide (j = h_id h)) as [|Hne]; [done|].
    rewrite list_lookup_insert_ne in Hj by done.
    by destruct (named_evict display display st j) as [[] _]; [exists img|]. }
  split; [done|]. split; [by rewrite length_insert, evict_length|].
  split; [|split; [done|split]].
  - eexists. by rewrite list_lookup_insert_eq.
  - intros j img Hne Hj. rewrite list_lookup_insert_ne by done.
    by rewrite evict_lookup, Hj.
  - intros Huniq m i j Hi Hj.
    destruct (decide (m = display)) as [->|Hm].
    { by rewrite (Honly i), (Honly j). }
    assert (∀ k, named (<[h_id h := Some (with_name (Some display)
                                            (h_fields h))]>
                          (evict display st)) k m → named st k m) as Hold.
    { intros k (img & Hk & Hn).
      destruct (decide (k = h_id h)) as [->|Hne].
      - rewrite list_lookup_insert_eq in Hk by done.
        by simplify_eq/=.
      - rewrite list_lookup_insert_ne in Hk by done.
        by destruct (named_evict display m st k) as [_ ?]; [exists img|]. }
    by apply (Huniq m); apply Hold.
Qed.

(** *** The identifier invariant *)

(** Path parsing keeps the invariant, also when it creates a record; the
    handle it returns names a live record with the fields of the handle,
    and the property key it returns is a metadata key. *)
Lemma init_path_id_unique path create st :
  id_unique st →
  id_unique (snd (_init_path path create st))
  ∧ ∀ h propname,
      fst (_init_path path create st) = Ok (Some h, propname) →
      snd (_init_path path create st) !! h_id h = Some (Some (h_fields h))
      ∧ (truthy_str propname = true →
         ∃ filename, propname = Some ("meta_" +:+ filename)).
Proof.
  intros Huniq. rewrite init_path_unfold. cbv zeta.
  destruct (negb (Nat.eqb (length (split "/" path)) 3)
            || negb (String.eqb (split "/" path !!! 0) Storage.images));
    [done|].
  destruct (environ !! "OS_AUTH_TOKEN"); [|done].
  assert (∀ propname,
            PropertyKey (split "/" path !!! 2) = propname →
            truthy_str propname = true →
            ∃ filename, propname = Some ("meta_" +:+ filename)) as Hkey.
  { intros propname <-. unfold PropertyKey.
    destruct (String.eqb _ "layer"); [done|]. by eexists. }
  destruct (record_of (split "/" path !!! 1) st) as [h|] eqn:Hrec;
    [|destruct create]; simpl.
  - split; [done|]. intros ? ? [= <- <-].
    apply record_of_live in Hrec as [Hlive _]. split; [done|]. by apply Hkey.
  - split.
    + apply (id_unique_create _ (split "/" path !!! 1)); [done..|].
      intros image_id'. apply matches_fresh_record_inv.
    + intros ? ? [= <- <-]. simpl. split; [|by apply Hkey].
      by rewrite lookup_app_r, Nat.sub_diag.
  - split; [done|]. by intros ? ?.
Qed.

(** X1: the operations of the layer store and the two tag handlers keep
    the invariant that at most one record of the driver's format carries a
    given identifier property, whatever the service does by default and
    whether they return or raise. *)
Theorem id_unique_preserved path content (sender : unit)
    namespace repository tag value st :
  id_unique st →
  id_unique (snd (put_content path content st))
  ∧ id_unique (snd (GlanceStorageLayers.stream_write default_purge environ
                      self path content st))
  ∧ id_unique (snd (remove path st))
  ∧ id_unique (snd (_handler_tag_created default_purge environ self sender
                      namespace repository tag value st))
  ∧ id_unique (snd (_handler_tag_deleted default_purge environ self sender
                      namespace repository tag st)).
Proof.
  intros Huniq.
  assert (∀ h u (st0 : Store),
            id_unique st0 →
            u_properties u = None → u_purge_props u = Some false →
            id_unique (snd (image_update default_purge h u st0))) as Hkeep.
  { intros h u st0 Hst0 Hprops Hflag.
    apply id_unique_image_update; [done|]. intros img _.
    unfold apply_update. rewrite Hprops, Hflag. simpl.
    by rewrite (left_id_L ∅ (∪)). }
  assert (∀ glance n (st0 : Store),
            _clear_images_name default_purge glance n st0
            = (Ok tt, evict n st0)) as Hclear
    by (intros; apply clear_images_name_run).
  split; [|split; [|split; [|split]]].
  - unfold GlanceStorageLayers.put_content. run.
    destruct (init_path_id_unique path true st Huniq) as [Hst' Hh].
    destruct (_init_path path true st) as [[[image propname]|e] st'];
      [|done]. simpl in *.
    destruct (truthy_str propname) eqn:Htruthy; [|done]. simpl.
    destruct image as [h|]; [|done]. simpl.
    destruct (Hh _ _ eq_refl) as [_ (filename & ->)]; [done|].
    apply id_unique_image_update; [done|]. intros img _. simpl.
    rewrite lookup_union_r; [done|].
    apply lookup_singleton_ne, meta_key_ne_id.
  - unfold GlanceStorageLayers.stream_write. run.
    destruct (init_path_id_unique path true st Huniq) as [Hst' _].
    destruct (_init_path path true st) as [[[image propname]|e] st'];
      [|done]. simpl in *.
    destruct (truthy_str propname); [done|].
    destruct image as [h|]; [|done]. simpl. by apply Hkeep.
  - unfold GlanceStorageLayers.remove. run.
    destruct (init_path_id_unique path false st Huniq) as [Hst' Hh].
    destruct (_init_path path false st) as [[[image propname]|e] st'];
      [|done]. simpl in *.
    destruct image as [h|]; [|done].
    destruct (Hh _ _ eq_refl) as [Hlive Hkey].
    destruct (truthy_str propname) eqn:Htruthy.
    + destruct (Hkey eq_refl) as (filename & ->). simpl.
      destruct (bool_decide _); [|done].
      apply id_unique_image_update; [done|]. intros img Himg.
      assert (img = h_fields h) as -> by congruence. simpl.
      destruct default_purge.
      * apply lookup_delete_ne, meta_key_ne_id.
      * rewrite map_subseteq_union; [done|]. apply delete_subseteq.
    + unfold image_delete. rewrite Hlive. simpl.
      by apply id_unique_delete.
  - unfold _handler_tag_created, _create_glance_client.
    destruct (environ !! "OS_AUTH_TOKEN"); [|done]. run.
    rewrite find_image_by_id_record_of.
    destruct (record_of value st) as [h|]; [|done].
    rewrite Hclear. apply Hkeep; [|done..]. by apply id_unique_evict.
  - unfold _handler_tag_deleted, _create_glance_client.
    destruct (environ !! "OS_AUTH_TOKEN"); [|done]. run.
    rewrite Hclear. by apply id_unique_evict.
Qed.

(** *** Further properties of the layer store *)

(** X2: a tag-deleted event takes the display name from every record that
    holds it and changes nothing else: afterwards no record holds the
    name, and every other name is held by the records that held it. *)
Theorem handler_tag_deleted_effect (sender : unit)
    namespace repository tag tok st :
  environ !! "OS_AUTH_TOKEN" = Some tok →
  let display := DisplayName namespace repository tag in
  _handler_tag_deleted default_purge environ self sender
    namespace repository tag st
  = (Ok tt, evict display st)
  ∧ (∀ j, ¬ named (evict display st) j display)
  ∧ (∀ j n, n ≠ display → named (evict display st) j n ↔ named st j n)
  ∧ length (evict display st) = length st.
Proof.
  intros Htok display.
  split; [|split; [|split]].
  - unfold _handler_tag_deleted, _create_glance_client. rewrite Htok. run.
    rewrite clear_images_name_run. do 2 f_equal.
    unfold display, DisplayName. by destruct (String.eqb namespace "library").
  - intros j Hj. by apply named_evict in Hj as [[] _].
  - intros j n Hn. split; [by intros [_ ?]%named_evict|].
    intros (img & Hj & Hname). exists (clear_name display img).
    rewrite evict_lookup, Hj. split; [done|].
    unfold clear_name. rewrite bool_decide_eq_false_2; [done|]. congruence.
  - apply evict_length.
Qed.

(** X3: [exists] is false for every path of an identifier without a record,
    and true for a metadata path right after [put_content] wrote it. *)
Theorem exists_after_put_content path image_id filename content tok st :
  environ !! "OS_AUTH_TOKEN" = Some tok →
  split "/" path = ["images"; image_id; filename] →
  (record_of image_id st = None → exists_ path st = (Ok false, st))
  ∧ (filename ≠ "layer" →
     ∃ st', put_content path content st = (Ok tt, st')
            ∧ exists_ path st' = (Ok true, st')).
Proof.
  intros Htok Hsplit. split.
  - intros Hnone. by rewrite (exists_run _ _ _ _ _ Htok Hsplit), Hnone.
  - intros Hne.
    rewrite (put_content_run _ _ _ content _ st Htok Hsplit Hne). cbv zeta.
    set (u := {| u_name := None;
                 u_properties := Some {[ "meta_" +:+ filename := content ]};
                 u_data := None; u_purge_props := Some false |}).
    assert (∀ img, matches (id_filters image_id) img = true →
                   matches (id_filters image_id)
                     (apply_update default_purge u img) = true) as Hkeep.
    { intros img. apply matches_apply_update. simpl. left. split; [done|].
      apply lookup_singleton_ne, meta_key_ne_id. }
    assert (∀ img, properties (apply_update default_purge u img)
                   !! ("meta_" +:+ filename) = Some content) as Hwritten.
    { intros img. simpl. apply lookup_union_Some_l, lookup_singleton_eq. }
    assert (∀ st' h, record_of image_id st' = Some h →
                     properties (h_fields h) !! ("meta_" +:+ filename)
                     = Some content →
                     exists_ path st' = (Ok true, st')) as Hexists.
    { intros st' h Hrec Hprop.
      rewrite (exists_run _ _ _ _ _ Htok Hsplit), Hrec, Hprop.
      apply String.eqb_neq in Hne as ->.
      by rewrite bool_decide_eq_true_2 by by eexists. }
    destruct (record_of image_id st) as [h|] eqn:Hrec.
    + pose proof (record_of_live _ _ _ Hrec) as [_ Hm].
      eexists. split; [done|].
      apply (Hexists _ _ (record_of_insert _ _ _ _ Hrec (Hkeep _ Hm))),
        Hwritten.
    + eexists. split; [done|].
      apply (Hexists _ _ (record_of_create _ _ _ Hrec
                            (Hkeep _ (matches_fresh_record image_id)))),
        Hwritten.
Qed.

(** X4: the bulk data written by [stream_write] are what [stream_read] of the
    same path returns, and [exists] is then true for that path. *)
Theorem stream_write_then_read path image_id fp tok st :
  environ !! "OS_AUTH_TOKEN" = Some tok →
  split "/" path = ["images"; image_id; "layer"] →
  ∃ st',
    GlanceStorageLayers.stream_write default_purge environ self path fp st
    = (Ok tt, st')
    ∧ GlanceStorageLayers.stream_read environ self path st' = (Ok fp, st')
    ∧ exists_ path st' = (Ok true, st').
Proof.
  intros Htok Hsplit.
  set (u := {| u_name := None; u_properties := None; u_data := Some fp;
               u_purge_props := Some false |}).
  assert (∀ img, matches (id_filters image_id) img = true →
                 matches (id_filters image_id)
                   (apply_update default_purge u img) = true) as Hkeep.
  { intros img. by apply matches_apply_update. }
  assert (∀ st' h, record_of image_id st' = Some h →
                   data (h_fields h) = Some fp →
                   GlanceStorageLayers.stream_read environ self path st'
                   = (Ok fp, st')
                   ∧ exists_ path st' = (Ok true, st')) as Hread.
  { intros st' h Hrec Hdata. split.
    - unfold GlanceStorageLayers.stream_read. run.
      rewrite (init_path_parsed _ _ _ _ _ _ Htok Hsplit), Hrec. simpl.
      apply record_of_live in Hrec as [Hlive _].
      unfold image_data. by rewrite Hlive, Hdata.
    - by rewrite (exists_run _ _ _ _ _ Htok Hsplit), Hrec. }
  unfold GlanceStorageLayers.stream_write. run.
  rewrite (init_path_parsed _ _ _ _ _ _ Htok Hsplit).
  destruct (record_of image_id st) as [h|] eqn:Hrec; simpl.
  - pose proof (record_of_live _ _ _ Hrec) as [Hlive Hm].
    rewrite (image_update_live _ _ _ _ _ Hlive).
    eexists. split; [done|].
    by apply (Hread _ _ (record_of_insert _ _ _ _ Hrec (Hkeep _ Hm))).
  - unfold image_update. simpl.
    rewrite lookup_app_r, Nat.sub_diag by done. simpl.
    rewrite insert_app_r_alt, Nat.sub_diag by done. simpl.
    eexists. split; [done|].
    by apply (Hread _ _ (record_of_create _ _ _ Hrec
                           (Hkeep _ (matches_fresh_record image_id)))).
Qed.

(** X5: a write through the wrong entry point raises the usage error after
    path parsing created the record: [put_content] on the bulk-data path
    of an identifier without a record leaves a fresh record behind. *)
Theorem put_content_bulk_path path image_id content tok st :
  environ !! "OS_AUTH_TOKEN" = Some tok →
  split "/" path = ["images"; image_id; "layer"] →
  record_of image_id st = None →
  put_content path content st
  = (Raise (ValueError "Wrong call (should be stream_write)"),
     st ++ [Some (fresh_record image_id)]).
Proof.
  intros Htok Hsplit Hnone. unfold GlanceStorageLayers.put_content. run.
  by rewrite (init_path_parsed _ _ _ _ _ _ Htok Hsplit), Hnone.
Qed.

End LayerStore.

(** ** The purge flag *)

Section PurgeFlag.
Context (environ : gmap string string).
Context (self : GlanceStorageLayers.t).

Import GlanceStorageLayers.

(** C10: on a property path whose record holds the property, [remove] is
    one update of the record that submits the remaining properties and
    carries no purge flag, so what becomes of the properties the update
    leaves out is the service's default: they are purged, and the property
    is gone, if the service purges by default; they are merged back, and
    the record is as before, if it does not.  Every other update of the
    layer store and of the tag handlers carries the flag: what
    [put_content], [stream_write] and the two handlers do is the same
    whatever the default. *)
Theorem remove_update_unflagged
    default_purge path image_id filename tok h content st :
  environ !! "OS_AUTH_TOKEN" = Some tok →
  split "/" path = ["images"; image_id; filename] →
  filename ≠ "layer" →
  record_of image_id st = Some h →
  properties (h_fields h) !! ("meta_" +:+ filename) = Some content →
  let props := delete ("meta_" +:+ filename) (properties (h_fields h)) in
  remove default_purge environ self path st
  = image_update default_purge h
      {| u_name := None; u_properties := Some props; u_data := None;
         u_purge_props := None |} st
  ∧ remove default_purge environ self path st
    = (Ok tt,
       <[h_id h := Some (with_properties
                           (if default_purge then props
                            else properties (h_fields h))
                           (h_fields h))]> st)
  ∧ (∀ dp dp' p c st0,
       put_content dp environ self p c st0
       = put_content dp' environ self p c st0)
  ∧ (∀ dp dp' p fp st0,
       stream_write dp environ self p fp st0
       = stream_write dp' environ self p fp st0)
  ∧ (∀ dp dp' (sender : unit) ns repo tag value st0,
       _handler_tag_created dp environ self sender ns repo tag value st0
       = _handler_tag_created dp' environ self sender ns repo tag value st0)
  ∧ (∀ dp dp' (sender : unit) ns repo tag st0,
       _handler_tag_deleted dp environ self sender ns repo tag st0
       = _handler_tag_deleted dp' environ self sender ns repo tag st0).
Proof.
  intros Htok Hsplit Hne Hrec Hprop props.
  assert (∀ dp dp' glance n st0,
            _clear_images_name dp glance n st0
            = _clear_images_name dp' glance n st0) as Hclear.
  { intros. unfold _clear_images_name. apply bind_ext. intros l st1.
    apply for_each_ext. intros x st2. by apply image_update_flagged. }
  rewrite (remove_run _ _ _ _ _ _ _ st Htok Hsplit), Hrec.
  apply String.eqb_neq in Hne as ->. cbv zeta.
  rewrite Hprop, bool_decide_eq_true_2 by by eexists.
  split; [done|]. split; [|split; [|split; [|split]]].
  - apply record_of_live in Hrec as [Hlive _].
    rewrite (image_update_live _ _ _ _ _ Hlive). do 3 f_equal.
    unfold apply_update, with_properties. simpl. f_equal.
    destruct default_purge; [done|].
    apply map_subseteq_union, delete_subseteq.
  - intros. unfold put_content. apply bind_ext. intros [image pn] st1.
    destruct (negb (truthy_str pn)); [done|].
    destruct image as [image|]; [|done]. simpl.
    by apply image_update_flagged.
  - intros. unfold stream_write. apply bind_ext. intros [image pn] st1.
    destruct (truthy_str pn); [done|].
    destruct image as [image|]; [|done]. simpl.
    by apply image_update_flagged.
  - intros. unfold _handler_tag_created. apply bind_ext. intros glance st1.
    apply bind_ext. intros [image|] st2; [|done].
    unfold mbind, M_bind, bind. rewrite (Hclear dp dp').
    destruct (_clear_images_name _ _ _ _) as [[[]|e] st3]; [|done].
    by apply image_update_flagged.
  - intros. unfold _handler_tag_deleted. apply bind_ext. intros glance st1.
    apply Hclear.
Qed.

End PurgeFlag.

(** ** The dispatcher *)

(** The constructor keeps the layer store and the base store whatever the
    configuration says. *)
Lemma init_fixed_backends config g :
  GlanceStorage.__init__ config = Ok g →
  GlanceStorage._storage_layers g
  = GlanceStorage.Layers (GlanceStorageLayers.__init__ config)
  ∧ GlanceStorage._storage_base g = GlanceStorage.BaseStorage.
Proof.
  unfold GlanceStorage.__init__.
  destruct (String.eqb _ "s3"); [by intros [= <-]|].
  destruct (String.eqb _ "local"); [by intros [= <-]|done].
Qed.

(** C7: the constructor selects the object-store backend when
    [storage_alternate] is [s3], the local-disk backend when it is [local]
    or absent, and raises the configuration error for every other value:
    then there is no dispatcher, hence no request handling. *)
Theorem init_storage_alternate config :
  let kind := config !! "storage_alternate" in
  (kind = Some "s3" →
   ∃ g, GlanceStorage.__init__ config = Ok g
        ∧ GlanceStorage._storage_tags g = GlanceStorage.S3Storage config)
  ∧ (kind = Some "local" ∨ kind = None →
     ∃ g, GlanceStorage.__init__ config = Ok g
          ∧ GlanceStorage._storage_tags g = GlanceStorage.LocalStorage config)
  ∧ (∀ other, kind = Some other → other ≠ "s3" → other ≠ "local" →
     GlanceStorage.__init__ config
     = Raise (ValueError ("Not supported storage '" +:+ other +:+ "'"))
     ∧ ∀ g, GlanceStorage.__init__ config ≠ Ok g).
Proof.
  cbv zeta. unfold GlanceStorage.__init__. split; [|split].
  - intros ->. simpl. by eexists.
  - intros [-> | ->]; simpl; by eexists.
  - intros other -> Hs3%String.eqb_neq Hlocal%String.eqb_neq. simpl.
    by rewrite Hs3, Hlocal.
Qed.

Section Dispatcher.
Context (class_attr : GlanceStorage.Backend → string
                      → option GlanceStorage.attr).
Context (repr_args : list GlanceStorage.pyval → string).
Context (repr_kwargs : gmap string GlanceStorage.pyval → string).
Context (self : GlanceStorage.t).

Import GlanceStorage.

Local Abbreviation hasattr := (hasattr class_attr).
Local Abbreviation getattr := (getattr class_attr).
Local Abbreviation _resolve_class_path :=
  (_resolve_class_path class_attr self).
Local Abbreviation __getattr__ :=
  (__getattr__ class_attr repr_args repr_kwargs self).

Lemma getattr_missing obj name :
  hasattr obj name = false → getattr obj name = PNone.
Proof.
  unfold GlanceStorage.hasattr, GlanceStorage.getattr.
  intros Hno%bool_decide_eq_false.
  destruct (class_attr obj name) as [a|]; [|done].
  destruct Hno. by eexists.
Qed.

(** The object the dispatcher picks is the backend of the namespace the
    classifier of the specification gives. *)
Lemma resolve_class_path_classify method_name args kwargs p :
  call_path args kwargs = PStr p →
  _resolve_class_path method_name args kwargs
  = Ok (getattr (backend_of self (classify p)) method_name).
Proof.
  unfold call_path, path_argument, GlanceStorage._resolve_class_path.
  intros Hpath.
  assert (match kwargs !! "path" with
          | Some q => q
          | None => match args with
                    | a :: _ => if is_basestring a then a else PStr ""
                    | [] => PStr ""
                    end
          end = PStr p) as ->.
  { destruct (kwargs !! "path") as [q|]; [done|].
    destruct args as [|[] ?]; done. }
  unfold classify, backend_of, Storage.images, Storage.repositories.
  destruct (startswith p "images"); [|destruct (startswith p "repositories")].
  all: destruct (hasattr _ method_name) eqn:Hhas; simpl; try done.
  all: by rewrite getattr_missing.
Qed.



(** C9: a named [path] argument decides the classification whatever the
    positional arguments are; without it, a first positional argument that
    is not a string is ignored, and that call, like a call with no
    argument at all, is looked up on the base store. *)
Theorem path_keyword_precedence name args kwargs :
  (∀ p, kwargs !! "path" = Some (PStr p) →
     _resolve_class_path name args kwargs
     = Ok (getattr (backend_of self (classify p)) name)
     ∧ ∀ args', _resolve_class_path name args' kwargs
                = _resolve_class_path name args kwargs)
  ∧ (kwargs !! "path" = None →
     (∀ a rest, args = a :: rest → is_basestring a = false →
        _resolve_class_path name args kwargs
        = Ok (getattr (_storage_base self) name))
     ∧ (args = [] →
        _resolve_class_path name args kwargs
        = Ok (getattr (_storage_base self) name))).
Proof.
  split.
  - intros p Hkw.
    assert (∀ args', _resolve_class_path name args' kwargs
                     = Ok (getattr (backend_of self (classify p)) name)) as H.
    { intros args'. apply resolve_class_path_classify.
      unfold call_path, path_argument. by rewrite Hkw. }
    split; [apply H|]. intros args'. by rewrite !H.
  - intros Hkw. split.
    + intros a rest -> Hstr.
      apply (resolve_class_path_classify name _ _ "").
      unfold call_path, path_argument. rewrite Hkw. by destruct a.
    + intros ->.
      apply (resolve_class_path_classify name _ _ "").
      unfold call_path, path_argument. by rewrite Hkw.
Qed.

End Dispatcher.

(** ** Errors and lookups of the layer store *)

Section LayerStoreErrors.
Context (default_purge : bool).
Context (environ : gmap string string).
Context (self : GlanceStorageLayers.t).

Import GlanceStorageLayers.

Local Abbreviation _init_path := (_init_path environ self).
Local Abbreviation get_content := (get_content environ self).
Local Abbreviation put_content := (put_content default_purge environ self).
Local Abbreviation stream_read := (stream_read environ self).
Local Abbreviation stream_write :=
  (stream_write default_purge environ self).
Local Abbreviation exists_ := (exists_ environ self).
Local Abbreviation remove := (remove default_purge environ self).
Local Abbreviation get_size := (get_size environ self).

Lemma init_path_invalid path create st :
  ¬ (length (split "/" path) = 3
     ∧ split "/" path !!! 0 = Storage.images) →
  _init_path path create st
  = (Raise (ValueError ("Invalid path: " +:+ path)), st).
Proof.
  intros Hshape. rewrite init_path_unfold. cbv zeta.
  destruct (negb (Nat.eqb (length (split "/" path)) 3)
            || negb (String.eqb (split "/" path !!! 0) Storage.images))
    eqn:Hb; [done|].
  by apply shape_ok_iff in Hb.
Qed.

Lemma init_path_no_token path create st :
  length (split "/" path) = 3 →
  split "/" path !!! 0 = Storage.images →
  environ !! "OS_AUTH_TOKEN" = None →
  _init_path path create st = (Raise (KeyError "OS_AUTH_TOKEN"), st).
Proof.
  intros Hlen Hfst Htok. rewrite init_path_unfold. cbv zeta.
  rewrite (proj2 (shape_ok_iff _) (conj Hlen Hfst)). by rewrite Htok.
Qed.

(** Path parsing without creation never changes the store. *)
Lemma init_path_lookup_store path st :
  snd (_init_path path false st) = st.
Proof.
  rewrite init_path_unfold. cbv zeta.
  destruct (negb (Nat.eqb (length (split "/" path)) 3)
            || negb (String.eqb (split "/" path !!! 0) Storage.images));
    [done|].
  destruct (environ !! "OS_AUTH_TOKEN"); [|done].
  by destruct (record_of (split "/" path !!! 1) st).
Qed.

(** X6: the four lookups, [get_content], [stream_read], [exists] and
    [get_size], leave the store exactly as it was, for every path and every
    store, whether they return or raise: none of them creates, changes or
    deletes a record. *)
Theorem lookups_leave_store path st :
  snd (get_content path st) = st
  ∧ snd (stream_read path st) = st
  ∧ snd (exists_ path st) = st
  ∧ snd (get_size path st) = st.
Proof.
  pose proof (init_path_lookup_store path st) as Hinit.
  unfold GlanceStorageLayers.get_content, GlanceStorageLayers.stream_read,
    GlanceStorageLayers.exists_, GlanceStorageLayers.get_size. run.
  destruct (_init_path path false st) as [[[image propname]|e] st'];
    simpl in Hinit; subst st'; [|done].
  split; [|split; [|split]].
  - destruct (negb (truthy_str propname)); [done|].
    destruct image as [h|]; [|done].
    by destruct (properties (h_fields h) !! default "" propname).
  - destruct (truthy_str propname); [done|].
    destruct image as [h|]; [|done]. unfold image_data.
    by destruct (st !! h_id h) as [[img|]|].
  - destruct image as [h|]; [|done].
    by destruct (negb (truthy_str propname)).
  - by destruct image.
Qed.

(** X7: a path that has not exactly three segments, or whose first segment
    is not the image prefix, is refused by every operation of the layer
    store with the invalid-path error, before the client is built and with
    the store untouched. *)
Theorem invalid_path_raises path content st :
  ¬ (length (split "/" path) = 3
     ∧ split "/" path !!! 0 = Storage.images) →
  get_content path st
  = (Raise (ValueError ("Invalid path: " +:+ path)), st)
  ∧ put_content path content st
    = (Raise (ValueError ("Invalid path: " +:+ path)), st)
  ∧ stream_read path st
    = (Raise (ValueError ("Invalid path: " +:+ path)), st)
  ∧ stream_write path content st
    = (Raise (ValueError ("Invalid path: " +:+ path)), st)
  ∧ exists_ path st
    = (Raise (ValueError ("Invalid path: " +:+ path)), st)
  ∧ remove path st
    = (Raise (ValueError ("Invalid path: " +:+ path)), st)
  ∧ get_size path st
    = (Raise (ValueError ("Invalid path: " +:+ path)), st).
Proof.
  intros Hshape.
  unfold GlanceStorageLayers.get_content, GlanceStorageLayers.put_content,
    GlanceStorageLayers.stream_read, GlanceStorageLayers.stream_write,
    GlanceStorageLayers.exists_, GlanceStorageLayers.remove,
    GlanceStorageLayers.get_size. run.
  by rewrite !(init_path_invalid _ _ _ Hshape).
Qed.

(** X8: when the process environment holds no token, every operation on a
    well-formed path and both tag handlers raise [KeyError] for the token
    and leave the store untouched: no record is looked up or created. *)
Theorem missing_token_raises path content (sender : unit)
    namespace repository tag value st :
  environ !! "OS_AUTH_TOKEN" = None →
  length (split "/" path) = 3 →
  split "/" path !!! 0 = Storage.images →
  get_content path st = (Raise (KeyError "OS_AUTH_TOKEN"), st)
  ∧ put_content path content st = (Raise (KeyError "OS_AUTH_TOKEN"), st)
  ∧ stream_read path st = (Raise (KeyError "OS_AUTH_TOKEN"), st)
  ∧ stream_write path content st = (Raise (KeyError "OS_AUTH_TOKEN"), st)
  ∧ exists_ path st = (Raise (KeyError "OS_AUTH_TOKEN"), st)
  ∧ remove path st = (Raise (KeyError "OS_AUTH_TOKEN"), st)
  ∧ get_size path st = (Raise (KeyError "OS_AUTH_TOKEN"), st)
  ∧ _handler_tag_created default_purge environ self sender
      namespace repository tag value st
    = (Raise (KeyError "OS_AUTH_TOKEN"), st)
  ∧ _handler_tag_deleted default_purge environ self sender
      namespace repository tag st
    = (Raise (KeyError "OS_AUTH_TOKEN"), st).
Proof.
  intros Htok Hlen Hfst.
  unfold GlanceStorageLayers.get_content, GlanceStorageLayers.put_content,
    GlanceStorageLayers.stream_read, GlanceStorageLayers.stream_write,
    GlanceStorageLayers.exists_, GlanceStorageLayers.remove,
    GlanceStorageLayers.get_size, _handler_tag_created,
    _handler_tag_deleted, _create_glance_client. run.
  rewrite !(init_path_no_token _ _ _ Hlen Hfst Htok). by rewrite Htok.
Qed.

(** X9: for a path that path parsing accepts, [stream_read] raises the
    usage error exactly when the path names a property, raises the
    not-found error exactly when the path selects the bulk data and no
    record stands for the identifier, and otherwise returns the bulk data
    of the record. *)
Theorem stream_read_result path image propname st st0 :
  _init_path path false st = (Ok (image, propname), st0) →
  let r := stream_read path st in
  let parts := split "/" path in
  image = record_of (parts !!! 1) st
  ∧ (fst r = Raise (ValueError "Wrong call (should be get_content)")
     ↔ parts !!! 2 ≠ "layer")
  ∧ (fst r = Raise (IOError ("No such image " +:+ path))
     ↔ parts !!! 2 = "layer" ∧ image = None)
  ∧ (∀ h fp, parts !!! 2 = "layer" → image = Some h →
       data (h_fields h) = Some fp → fst r = Ok fp).
Proof.
  intros Hinit. cbv zeta.
  pose proof Hinit as
    (image_id & filename & tok & Htok & Hsplit & -> & -> & ->)
      %init_path_lookup_inv.
  unfold GlanceStorageLayers.stream_read. run. rewrite Hinit.
  rewrite PropertyKey_truthy, Hsplit. simpl.
  destruct (String.eqb_spec filename "layer") as [->|Hne]; simpl.
  - split; [done|].
    destruct (record_of image_id st) as [h|] eqn:Hrec.
    + apply record_of_live in Hrec as [Hlive _].
      unfold image_data. rewrite Hlive. simpl.
      repeat split; try done.
      * by intros [_ ?].
      * intros h' fp _ [= <-] Hdata. by rewrite Hdata.
    + repeat split; try done.
  - repeat split; try done. by intros [? _].
Qed.

(** X10: for a path that path parsing accepts, [get_size] raises [OSError]
    exactly when no record stands for the identifier and otherwise returns
    the size of the record, whatever the file name of the path: the size
    asked through a metadata path is that of the image. *)
Theorem get_size_result path image propname st st0 :
  _init_path path false st = (Ok (image, propname), st0) →
  let r := get_size path st in
  image = record_of (split "/" path !!! 1) st
  ∧ (fst r = Raise (OSError ("No such image: '" +:+ path +:+ "'"))
     ↔ image = None)
  ∧ (∀ h, image = Some h → fst r = Ok (size (h_fields h))).
Proof.
  intros Hinit. cbv zeta.
  pose proof Hinit as
    (image_id & filename & tok & Htok & Hsplit & -> & -> & ->)
      %init_path_lookup_inv.
  unfold GlanceStorageLayers.get_size. run. rewrite Hinit, Hsplit. simpl.
  split; [done|].
  destruct (record_of image_id st) as [h|]; simpl.
  - repeat split; try done. by intros h' [= <-].
  - by repeat split.
Qed.

End LayerStoreErrors.

(** ** Names across events and writes *)

Lemma clear_name_idem n img :
  clear_name n (clear_name n img) = clear_name n img.
Proof.
  unfold clear_name at 2 3.
  destruct (bool_decide (name img = Some n)) eqn:Hb.
  - unfold clear_name. by rewrite bool_decide_eq_false_2.
  - unfold clear_name. by rewrite Hb.
Qed.

Lemma evict_idem n (st : Store) : evict n (evict n st) = evict n st.
Proof.
  unfold evict. rewrite <-list_fmap_compose. apply list_fmap_ext.
  intros i [img|] _; [|done]. simpl. by rewrite clear_name_idem.
Qed.

Lemma evict_insert n (st : Store) i img :
  evict n (<[i := Some img]> st)
  = <[i := Some (clear_name n img)]> (evict n st).
Proof. unfold evict. by rewrite list_fmap_insert. Qed.

Lemma matches_clear_name image_id n img :
  matches (id_filters image_id) (clear_name n img)
  = matches (id_filters image_id) img.
Proof. unfold clear_name. by destruct (bool_decide _). Qed.

(** An eviction changes no lookup by identifier, but for the name in the
    fields of the handle. *)
Lemma handles_from_evict image_id n i (st : Store) :
  handles_from (id_filters image_id) i (evict n st)
  = (λ h, mkHandle (h_id h) (clear_name n (h_fields h)))
      <$> handles_from (id_filters image_id) i st.
Proof.
  revert i. induction st as [|[img|] st IH]; intros i; simpl; [done| |].
  - rewrite matches_clear_name.
    destruct (matches (id_filters image_id) img); simpl; by rewrite IH.
  - apply IH.
Qed.

Lemma record_of_evict image_id n (st : Store) :
  record_of image_id (evict n st)
  = (λ h, mkHandle (h_id h) (clear_name n (h_fields h)))
      <$> record_of image_id st.
Proof.
  unfold record_of. rewrite handles_from_evict.
  by destruct (handles_from (id_filters image_id) 0 st).
Qed.

(** After an eviction of [d], a record that is given the name [d] is the
    only one to hold it. *)
Lemma named_tagged d (st : Store) i img j :
  named (<[i := Some (with_name (Some d) img)]> (evict d st)) j d →
  j = i.
Proof.
  intros (x & Hj & Hn).
  destruct (decide (j = i)) as [|Hne]; [done|].
  rewrite list_lookup_insert_ne in Hj by done.
  by destruct (named_evict d d st j) as [[] _]; [exists x|].
Qed.

(** Replacing a live record by one of the same name moves no name. *)
Lemma named_insert_same_name (st : Store) i img img' j n :
  st !! i = Some (Some img) →
  name img' = name img →
  named (<[i := Some img']> st) j n ↔ named st j n.
Proof.
  intros Hlive Hname. unfold named.
  destruct (decide (j = i)) as [->|Hne].
  - rewrite list_lookup_insert_eq by by eapply lookup_lt_Some.
    rewrite Hlive. split.
    + intros (x & [= <-] & Hn). exists img. split; [done|]. congruence.
    + intros (x & [= <-] & Hn). exists img'. split; [done|]. congruence.
  - by rewrite list_lookup_insert_ne.
Qed.

(** Appending a record without a name adds no holder of a name. *)
Lemma named_app_unnamed (st : Store) img j n :
  name img = None →
  named (st ++ [Some img]) j n ↔ named st j n.
Proof.
  intros Hnone. unfold named. split.
  - intros (x & Hj & Hn). exists x. split; [|done].
    destruct (decide (j < length st)) as [Hlt|Hge].
    + by rewrite lookup_app_l in Hj.
    + rewrite lookup_app_r in Hj by lia.
      destruct (j - length st) as [|k]; [|done].
      simplify_eq/=.
  - intros (x & Hj & Hn). exists x. split; [|done].
    rewrite lookup_app_l; [done|]. by eapply lookup_lt_Some.
Qed.

(** An update that passes no name moves no name. *)
Lemma named_image_update default_purge h u (st : Store) j n :
  u_name u = None →
  named (snd (image_update default_purge h u st)) j n ↔ named st j n.
Proof.
  intros Hu. unfold image_update.
  destruct (st !! h_id h) as [[img|]|] eqn:Hlive; [|done..]. simpl.
  apply (named_insert_same_name _ _ img); [done|].
  unfold apply_update. simpl. by rewrite Hu.
Qed.

Section Names.
Context (default_purge : bool).
Context (environ : gmap string string).
Context (self : GlanceStorageLayers.t).

Import GlanceStorageLayers.

Local Abbreviation tag_created :=
  (_handler_tag_created default_purge environ self tt).
Local Abbreviation tag_deleted :=
  (_handler_tag_deleted default_purge environ self tt).
Local Abbreviation put_content := (put_content default_purge environ self).
Local Abbreviation stream_write :=
  (stream_write default_purge environ self).

Lemma handler_tag_deleted_run namespace repository tag tok st :
  environ !! "OS_AUTH_TOKEN" = Some tok →
  tag_deleted namespace repository tag st
  = (Ok tt, evict (DisplayName namespace repository tag) st).
Proof.
  intros Htok. unfold _handler_tag_deleted, _create_glance_client.
  rewrite Htok. run. rewrite clear_images_name_run. do 2 f_equal.
  unfold DisplayName. by destruct (String.eqb namespace "library").
Qed.

(** The store after a tag-created event for an image that has a record,
    and the record of the image in it. *)
Lemma tag_created_record namespace repository tag value tok h st :
  environ !! "OS_AUTH_TOKEN" = Some tok →
  record_of value st = Some h →
  let display := DisplayName namespace repository tag in
  let tagged := with_name (Some display) (h_fields h) in
  tag_created namespace repository tag value st
  = (Ok tt, <[h_id h := Some tagged]> (evict display st))
  ∧ record_of value (<[h_id h := Some tagged]> (evict display st))
    = Some (mkHandle (h_id h) tagged).
Proof.
  intros Htok Hrec display tagged.
  rewrite (handler_tag_created_run _ _ _ tt _ _ _ _ _ st Htok), Hrec.
  split; [done|].
  assert (record_of value (evict display st)
          = Some (mkHandle (h_id h) (clear_name display (h_fields h))))
    as Hrec' by by rewrite record_of_evict, Hrec.
  apply (record_of_insert _ _ _ tagged) in Hrec'; [done|].
  apply record_of_live in Hrec as [_ Hm]. by rewrite <-Hm.
Qed.

(** X11: a tag-created event that is delivered twice has the effect of one
    delivery: the second run of the handler succeeds and leaves the store
    of the first. *)
Theorem handler_tag_created_idempotent
    namespace repository tag value tok st :
  environ !! "OS_AUTH_TOKEN" = Some tok →
  let st1 := snd (tag_created namespace repository tag value st) in
  tag_created namespace repository tag value st1 = (Ok tt, st1).
Proof.
  intros Htok. cbv zeta.
  destruct (record_of value st) as [h|] eqn:Hrec.
  - destruct (tag_created_record namespace repository tag value tok h st
                Htok Hrec) as [Hrun Hrec1].
    rewrite Hrun. simpl.
    rewrite (handler_tag_created_run _ _ _ tt _ _ _ _ _ _ Htok), Hrec1.
    cbv zeta. simpl. f_equal.
    rewrite evict_insert, evict_idem, list_insert_insert_eq.
    by destruct (h_fields h).
  - rewrite (handler_tag_created_run _ _ _ tt _ _ _ _ _ st Htok), Hrec.
    simpl.
    by rewrite (handler_tag_created_run _ _ _ tt _ _ _ _ _ st Htok), Hrec.
Qed.

(** X12: the name of a record is one slot.  Two tag-created events with
    different display names for the same image leave the image with the
    second name, and leave the first name to no record at all. *)
Theorem retag_overwrites_name
    namespace1 repository1 tag1 namespace2 repository2 tag2 value tok h st :
  environ !! "OS_AUTH_TOKEN" = Some tok →
  record_of value st = Some h →
  let first := DisplayName namespace1 repository1 tag1 in
  let second := DisplayName namespace2 repository2 tag2 in
  first ≠ second →
  ∃ st1 st2,
    tag_created namespace1 repository1 tag1 value st = (Ok tt, st1)
    ∧ tag_created namespace2 repository2 tag2 value st1 = (Ok tt, st2)
    ∧ named st2 (h_id h) second
    ∧ ∀ j, ¬ named st2 j first.
Proof.
  intros Htok Hrec first second Hne.
  destruct (tag_created_record namespace1 repository1 tag1 value tok h st
              Htok Hrec) as [Hrun1 Hrec1].
  destruct (tag_created_record namespace2 repository2 tag2 value tok _ _
              Htok Hrec1) as [Hrun2 _].
  simpl in Hrun2. fold first in Hrun1, Hrun2. fold second in Hrun2.
  eexists _, _. split; [exact Hrun1|]. split; [exact Hrun2|].
  apply record_of_live in Hrec as [Hlive _].
  assert (h_id h < length st) as Hlt by by eapply lookup_lt_Some.
  split.
  - eexists. split.
    + apply list_lookup_insert_eq.
      by rewrite evict_length, length_insert, evict_length.
    + done.
  - intros j (x & Hj & Hn).
    destruct (decide (j = h_id h)) as [->|Hj'].
    + rewrite list_lookup_insert_eq in Hj
        by by rewrite evict_length, length_insert, evict_length.
      simplify_eq/=.
    + rewrite list_lookup_insert_ne in Hj by done.
      assert (named (evict second
                       (<[h_id h := Some (with_name (Some first)
                                            (h_fields h))]>
                          (evict first st))) j first) as Hold
        by by exists x.
      apply named_evict in Hold as [_ Hold].
      by apply named_tagged in Hold.
Qed.

(** X13: deleting a tag after it was created on an image leaves the image
    without any name, also when the image had another name before the tag
    was created; no record holds the display name. *)
Theorem tag_created_then_deleted namespace repository tag value tok h st :
  environ !! "OS_AUTH_TOKEN" = Some tok →
  record_of value st = Some h →
  let display := DisplayName namespace repository tag in
  ∃ st1,
    tag_created namespace repository tag value st = (Ok tt, st1)
    ∧ tag_deleted namespace repository tag st1
      = (Ok tt, <[h_id h := Some (with_name None (h_fields h))]>
                  (evict display st))
    ∧ ∀ j n, named (<[h_id h := Some (with_name None (h_fields h))]>
                      (evict display st)) j n →
             j ≠ h_id h ∧ n ≠ display ∧ named st j n.
Proof.
  intros Htok Hrec display.
  destruct (tag_created_record namespace repository tag value tok h st
              Htok Hrec) as [Hrun _].
  fold display in Hrun. eexists. split; [exact Hrun|]. split.
  - rewrite (handler_tag_deleted_run _ _ _ _ _ Htok). fold display.
    rewrite evict_insert, evict_idem. do 3 f_equal.
    unfold clear_name. simpl. by rewrite bool_decide_eq_true_2.
  - intros j n (x & Hj & Hn).
    apply record_of_live in Hrec as [Hlive _].
    destruct (decide (j = h_id h)) as [->|Hne].
    + rewrite list_lookup_insert_eq in Hj.
      * by simplify_eq/=.
      * rewrite evict_length. by eapply lookup_lt_Some.
    + rewrite list_lookup_insert_ne in Hj by done.
      split; [done|]. apply named_evict. by exists x.
Qed.

Lemma named_init_path path create st j n :
  named (snd (_init_path environ self path create st)) j n ↔ named st j n.
Proof.
  rewrite init_path_unfold. cbv zeta.
  destruct (negb (Nat.eqb (length (split "/" path)) 3)
            || negb (String.eqb (split "/" path !!! 0) Storage.images));
    [done|].
  destruct (environ !! "OS_AUTH_TOKEN"); [|done].
  destruct (record_of (split "/" path !!! 1) st); [done|].
  destruct create; [|done]. simpl. by apply named_app_unnamed.
Qed.

(** X14: writes move no name.  After [put_content] or [stream_write],
    whether it returned or raised and whether it created a record, every
    name is held by exactly the records that held it before. *)
Theorem writes_keep_names path content st j n :
  (named (snd (put_content path content st)) j n ↔ named st j n)
  ∧ (named (snd (stream_write path content st)) j n ↔ named st j n).
Proof.
  pose proof (named_init_path path true st j n) as Hinit.
  unfold GlanceStorageLayers.put_content, GlanceStorageLayers.stream_write.
  run.
  destruct (_init_path environ self path true st)
    as [[[image propname]|e] st1]; simpl in Hinit; [|done].
  split.
  - destruct (negb (truthy_str propname)); [done|].
    destruct image as [image|]; [|done]. simpl.
    by rewrite named_image_update.
  - destruct (truthy_str propname); [done|].
    destruct image as [image|]; [|done]. simpl.
    by rewrite named_image_update.
Qed.

End Names.

(** ** Sequences of operations *)

Section Sequences.
Context (default_purge : bool).
Context (environ : gmap string string).
Context (self : GlanceStorageLayers.t).

Import GlanceStorageLayers.

Local Abbreviation get_content := (get_content environ self).
Local Abbreviation put_content := (put_content default_purge environ self).
Local Abbreviation exists_ := (exists_ environ self).
Local Abbreviation remove := (remove default_purge environ self).

(** What [get_content] answers for a metadata path, whatever the store. *)
Lemma get_content_metadata path image_id filename tok st :
  environ !! "OS_AUTH_TOKEN" = Some tok →
  split "/" path = ["images"; image_id; filename] →
  filename ≠ "layer" →
  get_content path st =
    match record_of image_id st with
    | Some h =>
        match properties (h_fields h) !! ("meta_" +:+ filename) with
        | Some content => (Ok content, st)
        | None => (Raise (IOError ("No such image " +:+ path)), st)
        end
    | None => (Raise (IOError ("No such image " +:+ path)), st)
    end.
Proof.
  intros Htok Hsplit Hne. unfold GlanceStorageLayers.get_content. run.
  rewrite (init_path_parsed _ _ _ _ _ _ _ _ Htok Hsplit).
  destruct (record_of image_id st) as [h|];
    rewrite PropertyKey_truthy; unfold PropertyKey;
    apply String.eqb_neq in Hne as ->; simpl; [|done].
  by destruct (properties (h_fields h) !! ("meta_" +:+ filename)).
Qed.

(** X15: when two records carry the same identifier, removing the layer
    deletes one of them only: [remove] on the bulk-data path succeeds and
    [exists] of the same path is still true afterwards. *)
Theorem remove_bulk_duplicates path image_id tok i j imgi imgj st :
  environ !! "OS_AUTH_TOKEN" = Some tok →
  split "/" path = ["images"; image_id; "layer"] →
  i ≠ j →
  st !! i = Some (Some imgi) → st !! j = Some (Some imgj) →
  matches (id_filters image_id) imgi = true →
  matches (id_filters image_id) imgj = true →
  ∃ h, record_of image_id st = Some h
       ∧ remove path st = (Ok tt, <[h_id h := None]> st)
       ∧ exists_ path (<[h_id h := None]> st)
         = (Ok true, <[h_id h := None]> st).
Proof.
  intros Htok Hsplit Hij Hi Hj Hmi Hmj.
  destruct (record_of image_id st) as [h|] eqn:Hrec.
  2:{ rewrite (proj1 (record_of_None _ _) Hrec _ _ Hi) in Hmi. done. }
  exists h. split; [done|].
  rewrite (remove_run _ _ _ _ _ _ _ st Htok Hsplit), Hrec. simpl.
  split; [done|].
  rewrite (exists_run _ _ _ _ _ _ _ Htok Hsplit).
  destruct (record_of image_id (<[h_id h := None]> st)) as [h'|] eqn:Hrec';
    [done|].
  pose proof (proj1 (record_of_None _ _) Hrec') as Hnone.
  destruct (decide (i = h_id h)) as [Hih|Hih].
  - assert (j ≠ h_id h) as Hjh by congruence.
    rewrite (Hnone j imgj) in Hmj; [done|].
    by rewrite list_lookup_insert_ne.
  - rewrite (Hnone i imgi) in Hmi; [done|].
    by rewrite list_lookup_insert_ne.
Qed.

(** X16: with a service that purges by default, a property that was
    removed is gone for the lookups: after [remove] of a metadata path,
    [exists] of the path is false and [get_content] raises the not-found
    error, while the record of the image, if there was one, is still the
    record of the image. *)
Theorem remove_then_lookup path image_id filename tok st :
  environ !! "OS_AUTH_TOKEN" = Some tok →
  split "/" path = ["images"; image_id; filename] →
  filename ≠ "layer" →
  default_purge = true →
  ∃ st',
    remove path st = (Ok tt, st')
    ∧ exists_ path st' = (Ok false, st')
    ∧ get_content path st'
      = (Raise (IOError ("No such image " +:+ path)), st')
    ∧ ∀ h, record_of image_id st = Some h →
        ∃ img', record_of image_id st' = Some (mkHandle (h_id h) img').
Proof.
  intros Htok Hsplit Hne ->.
  rewrite (remove_run _ _ _ _ _ _ _ st Htok Hsplit).
  assert (∀ st' : Store,
            match record_of image_id st' with
            | Some h =>
                properties (h_fields h) !! ("meta_" +:+ filename) = None
            | None => True
            end →
            exists_ path st' = (Ok false, st')
            ∧ get_content path st'
              = (Raise (IOError ("No such image " +:+ path)), st'))
    as Hgone.
  { intros st' Hst'.
    rewrite (exists_run _ _ _ _ _ _ _ Htok Hsplit).
    rewrite (get_content_metadata _ _ _ _ _ Htok Hsplit Hne).
    destruct (record_of image_id st') as [h|]; [|done].
    rewrite Hst'. apply String.eqb_neq in Hne as ->.
    by rewrite bool_decide_eq_false_2 by by intros [? ?]. }
  destruct (record_of image_id st) as [h|] eqn:Hrec.
  2:{ exists st. split; [done|].
      destruct (Hgone st) as [? ?]; [by rewrite Hrec|]. done. }
  apply String.eqb_neq in Hne as Hneb. rewrite Hneb. cbv zeta.
  destruct (properties (h_fields h) !! ("meta_" +:+ filename))
    as [content|] eqn:Hprop.
  - rewrite bool_decide_eq_true_2 by by eexists.
    pose proof (record_of_live _ _ _ Hrec) as [Hlive Hm].
    rewrite (image_update_live _ _ _ _ _ Hlive).
    set (img' := apply_update true _ (h_fields h)).
    assert (record_of image_id (<[h_id h := Some img']> st)
            = Some (mkHandle (h_id h) img')) as Hrec'.
    { apply record_of_insert; [done|].
      apply matches_apply_update; [|done]. simpl. right.
      rewrite lookup_delete_ne by apply meta_key_ne_id.
      by apply matches_id_filters in Hm as (_ & _ & ?). }
    eexists. split; [done|].
    destruct (Hgone (<[h_id h := Some img']> st)) as [? ?].
    { rewrite Hrec'. simpl. apply lookup_delete_eq. }
    repeat split; try done. intros ? [= <-]. by eexists.
  - rewrite bool_decide_eq_false_2 by by intros [? ?].
    exists st. split; [done|].
    destruct (Hgone st) as [? ?]; [by rewrite Hrec|].
    repeat split; try done. intros ? [= <-].
    exists (h_fields h). rewrite Hrec. by destruct h.
Qed.

(** X17: metadata of one image accumulate in one record.  Two
    [put_content] on different metadata files of the same identifier both
    succeed, the second creates no record, and afterwards both contents
    are read back. *)
Theorem put_content_accumulates
    path1 path2 image_id filename1 filename2 content1 content2 tok st :
  environ !! "OS_AUTH_TOKEN" = Some tok →
  split "/" path1 = ["images"; image_id; filename1] →
  split "/" path2 = ["images"; image_id; filename2] →
  filename1 ≠ "layer" → filename2 ≠ "layer" →
  filename1 ≠ filename2 →
  ∃ st1 st2,
    put_content path1 content1 st = (Ok tt, st1)
    ∧ put_content path2 content2 st1 = (Ok tt, st2)
    ∧ length st2 = length st1
    ∧ (length st1 ≤ S (length st))%nat
    ∧ get_content path1 st2 = (Ok content1, st2)
    ∧ get_content path2 st2 = (Ok content2, st2).
Proof.
  intros Htok Hsplit1 Hsplit2 Hne1 Hne2 Hne.
  assert ("meta_" +:+ filename2 ≠ "meta_" +:+ filename1) as Hkeys.
  { intros Heq. by apply (inj (String.app "meta_")) in Heq. }
  set (u1 := {| u_name := None;
                u_properties := Some {[ "meta_" +:+ filename1 := content1 ]};
                u_data := None; u_purge_props := Some false |}).
  set (u2 := {| u_name := None;
                u_properties := Some {[ "meta_" +:+ filename2 := content2 ]};
                u_data := None; u_purge_props := Some false |}).
  assert (∀ filename content img,
            matches (id_filters image_id) img = true →
            matches (id_filters image_id)
              (apply_update default_purge
                 {| u_name := None;
                    u_properties := Some {[ "meta_" +:+ filename := content ]};
                    u_data := None; u_purge_props := Some false |} img)
            = true) as Hkeep.
  { intros filename content img. apply matches_apply_update. simpl. left.
    split; [done|]. apply lookup_singleton_ne, meta_key_ne_id. }
  assert (∃ st1 h1,
            put_content path1 content1 st = (Ok tt, st1)
            ∧ (length st1 ≤ S (length st))%nat
            ∧ record_of image_id st1 = Some h1
            ∧ properties (h_fields h1) !! ("meta_" +:+ filename1)
              = Some content1) as (st1 & h1 & Hput1 & Hlen1 & Hrec1 & Hp1).
  { rewrite (put_content_run _ _ _ _ _ _ content1 _ st Htok Hsplit1 Hne1).
    cbv zeta. fold u1.
    destruct (record_of image_id st) as [h|] eqn:Hrec.
    - pose proof (record_of_live _ _ _ Hrec) as [_ Hm].
      eexists _, _. split; [done|]. split.
      { rewrite length_insert. lia. }
      split; [apply (record_of_insert _ _ _ _ Hrec), Hkeep, Hm|].
      simpl. apply lookup_union_Some_l, lookup_singleton_eq.
    - eexists _, _. split; [done|]. split.
      { rewrite length_app. simpl. lia. }
      split; [apply (record_of_create _ _ _ Hrec), Hkeep,
                matches_fresh_record|].
      simpl. apply lookup_union_Some_l, lookup_singleton_eq. }
  exists st1. eexists. split; [exact Hput1|].
  rewrite (put_content_run _ _ _ _ _ _ content2 _ st1 Htok Hsplit2 Hne2).
  cbv zeta. fold u2. rewrite Hrec1.
  pose proof (record_of_live _ _ _ Hrec1) as [_ Hm1].
  pose proof (record_of_insert _ _ _ _ Hrec1 (Hkeep filename2 content2 _ Hm1))
    as Hrec2.
  split; [done|]. split; [by rewrite length_insert|]. split; [done|].
  unfold u2. split.
  - rewrite (get_content_metadata _ _ _ _ _ Htok Hsplit1 Hne1), Hrec2.
    simpl. rewrite lookup_union_r by by apply lookup_singleton_ne.
    by rewrite Hp1.
  - rewrite (get_content_metadata _ _ _ _ _ Htok Hsplit2 Hne2), Hrec2.
    simpl. by rewrite (lookup_union_Some_l _ _ _ content2)
      by apply lookup_singleton_eq.
Qed.

(** X21: uploading the layer of an image disturbs none of its metadata:
    after [stream_write] on the bulk-data path, [get_content] of every
    metadata path of the same identifier answers what it answered before,
    the same content or the same not-found error. *)
Theorem stream_write_keeps_metadata
    path path' image_id filename fp tok st :
  environ !! "OS_AUTH_TOKEN" = Some tok →
  split "/" path = ["images"; image_id; "layer"] →
  split "/" path' = ["images"; image_id; filename] →
  filename ≠ "layer" →
  ∃ st',
    GlanceStorageLayers.stream_write default_purge environ self path fp st
    = (Ok tt, st')
    ∧ fst (get_content path' st') = fst (get_content path' st).
Proof.
  intros Htok Hsplit Hsplit' Hne.
  set (u := {| u_name := None; u_properties := None; u_data := Some fp;
               u_purge_props := Some false |}).
  assert (∀ img, matches (id_filters image_id) img = true →
                 matches (id_filters image_id)
                   (apply_update default_purge u img) = true) as Hkeep.
  { intros img. by apply matches_apply_update. }
  assert (∀ img, properties (apply_update default_purge u img)
                 = properties img) as Hprops.
  { intros img. simpl. by rewrite (left_id_L ∅ (∪)). }
  assert (∀ (st' : Store) h' o,
            record_of image_id st' = Some h' →
            properties (h_fields h') !! ("meta_" +:+ filename) = o →
            fst (get_content path' st')
            = match o with
              | Some content => Ok content
              | None => Raise (IOError ("No such image " +:+ path'))
              end) as Hafter.
  { intros st' h' o Hrec' <-.
    rewrite (get_content_metadata _ _ _ _ _ Htok Hsplit' Hne), Hrec'.
    by destruct (properties (h_fields h') !! ("meta_" +:+ filename)). }
  rewrite (get_content_metadata _ _ _ _ st Htok Hsplit' Hne).
  unfold GlanceStorageLayers.stream_write. run.
  rewrite (init_path_parsed _ _ _ _ _ _ _ _ Htok Hsplit).
  destruct (record_of image_id st) as [h|] eqn:Hrec; simpl.
  - pose proof (record_of_live _ _ _ Hrec) as [Hlive Hm].
    rewrite (image_update_live _ _ _ _ _ Hlive).
    eexists. split; [done|].
    etrans; [apply (Hafter _ _ _ (record_of_insert _ _ _ _ Hrec
                                    (Hkeep _ Hm)) eq_refl)|].
    cbn [h_fields]. rewrite Hprops.
    by destruct (properties (h_fields h) !! ("meta_" +:+ filename)).
  - unfold image_update. simpl.
    rewrite lookup_app_r, Nat.sub_diag by done. simpl.
    rewrite insert_app_r_alt, Nat.sub_diag by done. simpl.
    eexists. split; [done|].
    etrans; [apply (Hafter _ _ _ (record_of_create _ _ _ Hrec
                                    (Hkeep _ (matches_fresh_record
                                                image_id))) eq_refl)|].
    cbn [h_fields]. rewrite Hprops. simpl.
    rewrite lookup_singleton_ne; [done|].
    intros Heq. by apply (meta_key_ne_id filename).
Qed.

(** X22: records of another format are invisible to the layer store.
    When every record that carries the identifier property of an image has
    another disk or container format, [exists] is false for the paths of
    the image, and a first [put_content] appends a record of its own and
    leaves those records as they are. *)
Theorem foreign_format_invisible path image_id filename content tok st :
  environ !! "OS_AUTH_TOKEN" = Some tok →
  split "/" path = ["images"; image_id; filename] →
  filename ≠ "layer" →
  (∀ j img, st !! j = Some (Some img) →
            properties img !! "id" = Some image_id →
            Glance.disk_format img ≠ "raw"
            ∨ Glance.container_format img ≠ "bare") →
  exists_ path st = (Ok false, st)
  ∧ ∃ img',
      put_content path content st = (Ok tt, st ++ [Some img'])
      ∧ Glance.disk_format img' = "raw"
      ∧ Glance.container_format img' = "bare"
      ∧ properties img'
        = {[ "meta_" +:+ filename := content ]} ∪ {[ "id" := image_id ]}.
Proof.
  intros Htok Hsplit Hne Hforeign.
  assert (record_of image_id st = None) as Hnone.
  { apply record_of_None. intros j img Hj.
    destruct (matches (id_filters image_id) img) eqn:Hm; [|done].
    apply matches_id_filters in Hm as (Hdf & Hcf & Hid).
    by destruct (Hforeign j img Hj Hid). }
  split.
  - by rewrite (exists_run _ _ _ _ _ _ _ Htok Hsplit), Hnone.
  - rewrite (put_content_run _ _ _ _ _ _ content _ st Htok Hsplit Hne).
    cbv zeta. rewrite Hnone. by eexists.
Qed.

End Sequences.

(** ** Errors of the dispatcher *)

Section DispatcherErrors.
Context (class_attr : GlanceStorage.Backend → string
                      → option GlanceStorage.attr).
Context (repr_args : list GlanceStorage.pyval → string).
Context (repr_kwargs : gmap string GlanceStorage.pyval → string).
Context (self : GlanceStorage.t).

Import GlanceStorage.

Local Abbreviation getattr := (getattr class_attr).
Local Abbreviation _resolve_class_path :=
  (_resolve_class_path class_attr self).
Local Abbreviation __getattr__ :=
  (__getattr__ class_attr repr_args repr_kwargs self).



(** X20: the dispatcher that the constructor builds from a configuration
    looks a call up on the layer store of that configuration for an image
    path, on the object store or the local disk of that configuration,
    as [storage_alternate] says, for a repository path, and on the base
    store otherwise. *)
Theorem init_then_dispatch config g name args kwargs p :
  GlanceStorage.__init__ config = Ok g →
  call_path args kwargs = PStr p →
  GlanceStorage._resolve_class_path class_attr g name args kwargs
  = Ok (getattr
          (if startswith p "images"
           then Layers (GlanceStorageLayers.__init__ config)
           else if startswith p "repositories"
                then if String.eqb
                          (default "local" (config !! "storage_alternate"))
                          "s3"
                     then S3Storage config
                     else LocalStorage config
                else BaseStorage)
          name).
Proof.
  intros Hinit Hpath.
  rewrite (resolve_class_path_classify _ _ _ _ _ _ Hpath).
  do 2 f_equal. unfold backend_of, classify.
  unfold GlanceStorage.__init__ in Hinit.
  destruct (String.eqb (default "local" (config !! "storage_alternate"))
              "s3").
  - injection Hinit as <-. simpl.
    by destruct (startswith p "images"), (startswith p "repositories").
  - destruct (String.eqb (default "local" (config !! "storage_alternate"))
                "local"); [|done].
    injection Hinit as <-. simpl.
    by destruct (startswith p "images"), (startswith p "repositories").
Qed.

End DispatcherErrors.

(** ** The theorems at concrete inputs *)


(** Overwriting the [json] property of image [abc] and reading it back;
    the [checksum] property keeps its value. *)
Lemma put_then_get_content_witness :
  Examples.environ !! "OS_AUTH_TOKEN" = Some "secret"
  ∧ split "/" "images/abc/json" = ["images"; "abc"; "json"]
  ∧ "json" ≠ "layer"
  ∧ ∃ st',
      GlanceStorageLayers.put_content true Examples.environ Examples.layers
        "images/abc/json" "{v2}" Examples.store = (Ok tt, st')
      ∧ GlanceStorageLayers.get_content Examples.environ Examples.layers
          "images/abc/json" st' = (Ok "{v2}", st')
      ∧ ∃ img', st' !! 0 = Some (Some img')
                ∧ properties img' !! "meta_checksum" = Some "sha256:0".
Proof.
  assert (Examples.environ !! "OS_AUTH_TOKEN" = Some "secret") as Htok
    by (vm_compute; reflexivity).
  assert (split "/" "images/abc/json" = ["images"; "abc"; "json"]) as Hsplit
    by reflexivity.
  assert ("json" ≠ "layer") as Hne by discriminate.
  assert (record_of "abc" Examples.store = Some (mkHandle 0 Examples.abc))
    as Hrec by (vm_compute; reflexivity).
  destruct (put_then_get_content true Examples.environ Examples.layers
              "images/abc/json" "abc" "json" "{v2}" "secret" Examples.store
              Htok Hsplit Hne) as (st' & Hput & Hget & Hframe).
  destruct (Hframe _ Hrec) as [(img' & Hrec' & Hprops) _].
  apply record_of_live in Hrec' as [Hlive _].
  split; [exact Htok|]. split; [exact Hsplit|]. split; [exact Hne|].
  exists st'. split; [exact Hput|]. split; [exact Hget|].
  exists img'. split; [exact Hlive|].
  rewrite Hprops; [vm_compute; reflexivity|discriminate].
Defined.

(** Tagging image [def] as [busybox:latest] takes the name from image
    [abc], which held it. *)
Lemma handler_tag_created_effect_witness :
  Examples.environ !! "OS_AUTH_TOKEN" = Some "secret"
  ∧ ∃ st',
      GlanceStorageLayers._handler_tag_created true Examples.environ
        Examples.layers tt "library" "busybox" "latest" "def" Examples.store
      = (Ok tt, st')
      ∧ named st' 1 "busybox:latest"
      ∧ ¬ named st' 0 "busybox:latest"
      ∧ length st' = 2.
Proof.
  assert (Examples.environ !! "OS_AUTH_TOKEN" = Some "secret") as Htok
    by (vm_compute; reflexivity).
  assert (record_of "def" Examples.store = Some (mkHandle 1 Examples.def))
    as Hrec by (vm_compute; reflexivity).
  destruct (handler_tag_created_effect true Examples.environ Examples.layers
              tt "library" "busybox" "latest" "def" "secret" Examples.store
              Htok) as (st' & Hrun & Hcase).
  rewrite Hrec in Hcase. destruct Hcase as (_ & Hlen & Hnamed & Honly & _).
  split; [exact Htok|]. exists st'.
  split; [exact Hrun|]. split; [exact Hnamed|]. split; [|exact Hlen].
  intros Hzero. apply Honly in Hzero. discriminate Hzero.
Defined.

Lemma examples_store_id_unique : id_unique Examples.store.
Proof.
  assert (∀ image_id, matches (id_filters image_id) Examples.abc = true →
                      image_id = "abc") as Habc.
  { intros image_id (_ & _ & Hid)%matches_id_filters.
    vm_compute in Hid. congruence. }
  assert (∀ image_id, matches (id_filters image_id) Examples.def = true →
                      image_id = "def") as Hdef.
  { intros image_id (_ & _ & Hid)%matches_id_filters.
    vm_compute in Hid. congruence. }
  intros image_id [|[|i]] [|[|j]] imgi imgj Hi Hj Hmi Hmj;
    simpl in Hi, Hj; try discriminate; try reflexivity.
  - injection Hi as <-. injection Hj as <-.
    apply Habc in Hmi. apply Hdef in Hmj. congruence.
  - injection Hi as <-. injection Hj as <-.
    apply Hdef in Hmi. apply Habc in Hmj. congruence.
Qed.

(** Removing the [json] property of image [abc] leaves the record with its
    other properties; removing its layer deletes the record, and nothing
    of image [abc] exists any more. *)
Lemma remove_effect_witness :
  Examples.environ !! "OS_AUTH_TOKEN" = Some "secret"
  ∧ split "/" "images/abc/json" = ["images"; "abc"; "json"]
  ∧ split "/" "images/abc/layer" = ["images"; "abc"; "layer"]
  ∧ (∃ st',
       GlanceStorageLayers.remove true Examples.environ Examples.layers
         "images/abc/json" Examples.store = (Ok tt, st')
       ∧ st' !! 0 = Some (Some (with_properties
                                  {[ "id" := "abc";
                                     "meta_checksum" := "sha256:0" ]}
                                  Examples.abc))
       ∧ st' !! 1 = Some (Some Examples.def))
  ∧ (∃ st',
       GlanceStorageLayers.remove true Examples.environ Examples.layers
         "images/abc/layer" Examples.store = (Ok tt, st')
       ∧ st' !! 0 = Some None
       ∧ GlanceStorageLayers.exists_ Examples.environ Examples.layers
           "images/abc/json" st' = (Ok false, st')).
Proof.
  assert (Examples.environ !! "OS_AUTH_TOKEN" = Some "secret") as Htok
    by (vm_compute; reflexivity).
  assert (split "/" "images/abc/json" = ["images"; "abc"; "json"]) as Hjson
    by reflexivity.
  assert (split "/" "images/abc/layer" = ["images"; "abc"; "layer"])
    as Hlayer by reflexivity.
  assert (record_of "abc" Examples.store = Some (mkHandle 0 Examples.abc))
    as Hrec by (vm_compute; reflexivity).
  assert (∀ j img, j ≠ 0 → Examples.store !! j = Some (Some img) →
                   matches (id_filters "abc") img = false) as Honly.
  { intros [|[|j]] img Hj Hlive; simpl in Hlive;
      [by destruct Hj| |discriminate Hlive].
    injection Hlive as <-. vm_compute. reflexivity. }
  split; [exact Htok|]. split; [exact Hjson|]. split; [exact Hlayer|]. split.
  - destruct (remove_effect true Examples.environ Examples.layers
                "images/abc/json" "abc" "json" "secret" Examples.store
                Htok Hjson) as (st' & Hrun & Hcase).
    rewrite Hrec in Hcase. cbv zeta in Hcase.
    destruct Hcase as [Hothers Hcase].
    destruct (decide ("json" = "layer")) as [Heq|_]; [discriminate Heq|].
    destruct Hcase as [_ Hdeleted].
    exists st'. split; [exact Hrun|]. split.
    + etrans; [exact (Hdeleted eq_refl)|]. vm_compute. reflexivity.
    + etrans; [apply Hothers; discriminate|]. reflexivity.
  - destruct (remove_effect true Examples.environ Examples.layers
                "images/abc/layer" "abc" "layer" "secret" Examples.store
                Htok Hlayer) as (st' & Hrun & Hcase).
    rewrite Hrec in Hcase. cbv zeta in Hcase.
    destruct Hcase as [_ Hcase].
    destruct (decide ("layer" = "layer")) as [_|Hne]; [|by destruct Hne].
    destruct Hcase as (Hgone & Hexists & _).
    exists st'. split; [exact Hrun|]. split; [exact Hgone|].
    exact (Hexists Honly _ _ Hjson).
Defined.

(** Against C4 as the specification words it: when two records carry the
    identifier, as in the store [Examples.duplicates], removing the layer
    of image [abc] succeeds and deletes the first record only, and
    [exists] of the same path is then true, not false. *)
Lemma remove_effect_counterexample :
  GlanceStorageLayers.remove true Examples.environ Examples.layers
    "images/abc/layer" Examples.duplicates
  = (Ok tt, [None; Some Examples.def; Some Examples.abc])
  ∧ GlanceStorageLayers.exists_ Examples.environ Examples.layers
      "images/abc/layer" [None; Some Examples.def; Some Examples.abc]
    = (Ok true, [None; Some Examples.def; Some Examples.abc])
  ∧ GlanceStorageLayers.exists_ Examples.environ Examples.layers
      "images/abc/layer" [None; Some Examples.def; Some Examples.abc]
    ≠ (Ok false, [None; Some Examples.def; Some Examples.abc]).
Proof.
  assert (GlanceStorageLayers.exists_ Examples.environ Examples.layers
            "images/abc/layer" [None; Some Examples.def; Some Examples.abc]
          = (Ok true, [None; Some Examples.def; Some Examples.abc]))
    as Hexists by (vm_compute; reflexivity).
  split; [vm_compute; reflexivity|]. split; [exact Hexists|].
  rewrite Hexists. intros Heq. discriminate Heq.
Qed.

(** Reading the [json] property of image [abc]. *)
Lemma get_content_result_witness :
  GlanceStorageLayers._init_path Examples.environ Examples.layers
    "images/abc/json" false Examples.store
  = (Ok (Some (mkHandle 0 Examples.abc), Some "meta_json"), Examples.store)
  ∧ GlanceStorageLayers.get_content Examples.environ Examples.layers
      "images/abc/json" Examples.store
    = (Ok "{}", Examples.store).
Proof.
  assert (GlanceStorageLayers._init_path Examples.environ Examples.layers
            "images/abc/json" false Examples.store
          = (Ok (Some (mkHandle 0 Examples.abc), Some "meta_json"),
             Examples.store)) as Hinit
    by (vm_compute; reflexivity).
  assert (properties Examples.abc !! "meta_json" = Some "{}") as Hprop
    by (vm_compute; reflexivity).
  destruct (get_content_result Examples.environ Examples.layers _ _ _ _ _
              Hinit) as (Hstore & _ & _ & _ & _ & Hvalue).
  specialize (Hvalue "meta_json" (mkHandle 0 Examples.abc) "{}"
                eq_refl eq_refl Hprop).
  split; [exact Hinit|].
  destruct (GlanceStorageLayers.get_content Examples.environ Examples.layers
              "images/abc/json" Examples.store) as [r st'].
  simpl in Hstore, Hvalue. by rewrite Hstore, Hvalue.
Defined.

(** A path of two segments is refused; the layer path of image [abc] is
    parsed to the bulk-data sentinel. *)
Lemma init_path_property_key_witness :
  GlanceStorageLayers._init_path Examples.environ Examples.layers
    "images/abc" true Examples.store
  = (Raise (ValueError "Invalid path: images/abc"), Examples.store)
  ∧ ∃ image st',
      GlanceStorageLayers._init_path Examples.environ Examples.layers
        "images/abc/layer" false Examples.store
      = (Ok (image, None), st').
Proof.
  split.
  - apply (proj1 (init_path_property_key Examples.environ Examples.layers
                    "images/abc" true Examples.store)).
    intros [Hlen _]. discriminate Hlen.
  - destruct (proj2 (init_path_property_key Examples.environ Examples.layers
                       "images/abc/layer" false Examples.store))
      as (_ & Hok & _).
    + split; reflexivity.
    + apply Hok. exists "secret". vm_compute. reflexivity.
Defined.

(** The value [ftp] is refused; an empty configuration selects the local
    disk. *)
Lemma init_storage_alternate_witness :
  GlanceStorage.__init__ {[ "storage_alternate" := "ftp" ]}
  = Raise (ValueError "Not supported storage 'ftp'")
  ∧ ∃ g, GlanceStorage.__init__ ∅ = Ok g
         ∧ GlanceStorage._storage_tags g = GlanceStorage.LocalStorage ∅.
Proof.
  split.
  - destruct (init_storage_alternate {[ "storage_alternate" := "ftp" ]})
      as (_ & _ & Hother).
    apply (Hother "ftp"); [vm_compute; reflexivity|discriminate..].
  - destruct (init_storage_alternate ∅) as (_ & Hlocal & _).
    apply Hlocal. right. vm_compute. reflexivity.
Defined.


(** A named [path] under the image prefix wins over a positional
    repository path; a positional number is not a path. *)
Lemma path_keyword_precedence_witness :
  GlanceStorage._resolve_class_path Examples.class_attr Examples.dispatcher
    "get_content" [GlanceStorage.PStr "repositories/library/busybox"]
    {[ "path" := GlanceStorage.PStr "images/abc/json" ]}
  = Ok (GlanceStorage.PMethod (GlanceStorage.Layers Examples.layers)
          "get_content")
  ∧ GlanceStorage._resolve_class_path Examples.class_attr Examples.dispatcher
      "get_content" [GlanceStorage.PInt 7] ∅
    = Ok (GlanceStorage.PMethod GlanceStorage.BaseStorage "get_content").
Proof.
  split.
  - destruct (path_keyword_precedence Examples.class_attr
                Examples.dispatcher "get_content"
                [GlanceStorage.PStr "repositories/library/busybox"]
                {[ "path" := GlanceStorage.PStr "images/abc/json" ]})
      as [Hnamed _].
    destruct (Hnamed "images/abc/json") as [Hres _];
      [vm_compute; reflexivity|].
    etrans; [exact Hres|]. vm_compute. reflexivity.
  - destruct (path_keyword_precedence Examples.class_attr
                Examples.dispatcher "get_content" [GlanceStorage.PInt 7] ∅)
      as [_ Hpositional].
    destruct Hpositional as [Hres _]; [vm_compute; reflexivity|].
    etrans; [exact (Hres _ _ eq_refl eq_refl)|]. vm_compute. reflexivity.
Defined.

(** Removing the [json] property of image [abc]: gone when the service
    purges by default, still there when it merges. *)
Lemma remove_update_unflagged_witness :
  Examples.environ !! "OS_AUTH_TOKEN" = Some "secret"
  ∧ split "/" "images/abc/json" = ["images"; "abc"; "json"]
  ∧ "json" ≠ "layer"
  ∧ record_of "abc" Examples.store = Some (mkHandle 0 Examples.abc)
  ∧ properties Examples.abc !! "meta_json" = Some "{}"
  ∧ GlanceStorageLayers.remove true Examples.environ Examples.layers
      "images/abc/json" Examples.store
    = (Ok tt,
       [Some (with_properties
                {[ "id" := "abc"; "meta_checksum" := "sha256:0" ]}
                Examples.abc);
        Some Examples.def])
  ∧ GlanceStorageLayers.remove false Examples.environ Examples.layers
      "images/abc/json" Examples.store
    = (Ok tt, Examples.store).
Proof.
  assert (Examples.environ !! "OS_AUTH_TOKEN" = Some "secret") as Htok
    by (vm_compute; reflexivity).
  assert (split "/" "images/abc/json" = ["images"; "abc"; "json"]) as Hsplit
    by reflexivity.
  assert ("json" ≠ "layer") as Hne by discriminate.
  assert (record_of "abc" Examples.store = Some (mkHandle 0 Examples.abc))
    as Hrec by (vm_compute; reflexivity).
  assert (properties Examples.abc !! "meta_json" = Some "{}") as Hprop
    by (vm_compute; reflexivity).
  split; [exact Htok|]. split; [exact Hsplit|]. split; [exact Hne|].
  split; [exact Hrec|]. split; [exact Hprop|]. split.
  - destruct (remove_update_unflagged Examples.environ Examples.layers true
                _ _ _ _ _ _ _ Htok Hsplit Hne Hrec Hprop) as (_ & Hrun & _).
    etrans; [exact Hrun|]. vm_compute. reflexivity.
  - destruct (remove_update_unflagged Examples.environ Examples.layers false
                _ _ _ _ _ _ _ Htok Hsplit Hne Hrec Hprop) as (_ & Hrun & _).
    etrans; [exact Hrun|]. vm_compute. reflexivity.
Defined.

(** Writing a property of a new image [xyz] keeps one record per
    identifier. *)
Lemma id_unique_preserved_witness :
  id_unique Examples.store
  ∧ id_unique (snd (GlanceStorageLayers.put_content true Examples.environ
                      Examples.layers "images/xyz/json" "{}"
                      Examples.store)).
Proof.
  split; [exact examples_store_id_unique|].
  exact (proj1 (id_unique_preserved true Examples.environ Examples.layers
                  "images/xyz/json" "{}" tt "library" "busybox" "latest"
                  "abc" Examples.store examples_store_id_unique)).
Defined.

(** Deleting the tag [busybox:latest] leaves image [abc] without a name. *)
Lemma handler_tag_deleted_effect_witness :
  Examples.environ !! "OS_AUTH_TOKEN" = Some "secret"
  ∧ GlanceStorageLayers._handler_tag_deleted true Examples.environ
      Examples.layers tt "library" "busybox" "latest" Examples.store
    = (Ok tt, [Some (with_name None Examples.abc); Some Examples.def]).
Proof.
  assert (Examples.environ !! "OS_AUTH_TOKEN" = Some "secret") as Htok
    by (vm_compute; reflexivity).
  split; [exact Htok|].
  destruct (handler_tag_deleted_effect true Examples.environ Examples.layers
              tt "library" "busybox" "latest" "secret" Examples.store Htok)
    as [Hrun _].
  etrans; [exact Hrun|]. vm_compute. reflexivity.
Defined.

(** Nothing exists of image [xyz], which was never written. *)
Lemma exists_after_put_content_witness :
  Examples.environ !! "OS_AUTH_TOKEN" = Some "secret"
  ∧ split "/" "images/xyz/json" = ["images"; "xyz"; "json"]
  ∧ GlanceStorageLayers.exists_ Examples.environ Examples.layers
      "images/xyz/json" Examples.store
    = (Ok false, Examples.store)
  ∧ ∃ st',
      GlanceStorageLayers.put_content true Examples.environ Examples.layers
        "images/xyz/json" "{}" Examples.store = (Ok tt, st')
      ∧ GlanceStorageLayers.exists_ Examples.environ Examples.layers
          "images/xyz/json" st' = (Ok true, st').
Proof.
  assert (Examples.environ !! "OS_AUTH_TOKEN" = Some "secret") as Htok
    by (vm_compute; reflexivity).
  assert (split "/" "images/xyz/json" = ["images"; "xyz"; "json"]) as Hsplit
    by reflexivity.
  destruct (exists_after_put_content true Examples.environ Examples.layers
              "images/xyz/json" "xyz" "json" "{}" "secret" Examples.store
              Htok Hsplit) as [Hbefore Hafter].
  split; [exact Htok|]. split; [exact Hsplit|]. split.
  - apply Hbefore. vm_compute. reflexivity.
  - apply Hafter. discriminate.
Defined.

(** Uploading the layer of image [def] and streaming it back. *)
Lemma stream_write_then_read_witness :
  Examples.environ !! "OS_AUTH_TOKEN" = Some "secret"
  ∧ split "/" "images/def/layer" = ["images"; "def"; "layer"]
  ∧ ∃ st',
      GlanceStorageLayers.stream_write true Examples.environ Examples.layers
        "images/def/layer" "tarball" Examples.store = (Ok tt, st')
      ∧ GlanceStorageLayers.stream_read Examples.environ Examples.layers
          "images/def/layer" st' = (Ok "tarball", st').
Proof.
  assert (Examples.environ !! "OS_AUTH_TOKEN" = Some "secret") as Htok
    by (vm_compute; reflexivity).
  assert (split "/" "images/def/layer" = ["images"; "def"; "layer"])
    as Hsplit by reflexivity.
  destruct (stream_write_then_read true Examples.environ Examples.layers
              "images/def/layer" "def" "tarball" "secret" Examples.store
              Htok Hsplit) as (st' & Hwrite & Hread & _).
  split; [exact Htok|]. split; [exact Hsplit|].
  exists st'. split; [exact Hwrite|exact Hread].
Defined.

(** [put_content] on the layer path of the unknown image [xyz] fails and
    leaves a record for [xyz]. *)
Lemma put_content_bulk_path_witness :
  Examples.environ !! "OS_AUTH_TOKEN" = Some "secret"
  ∧ split "/" "images/xyz/layer" = ["images"; "xyz"; "layer"]
  ∧ record_of "xyz" Examples.store = None
  ∧ GlanceStorageLayers.put_content true Examples.environ Examples.layers
      "images/xyz/layer" "{}" Examples.store
    = (Raise (ValueError "Wrong call (should be stream_write)"),
       Examples.store ++ [Some (fresh_record "xyz")]).
Proof.
  assert (Examples.environ !! "OS_AUTH_TOKEN" = Some "secret") as Htok
    by (vm_compute; reflexivity).
  assert (split "/" "images/xyz/layer" = ["images"; "xyz"; "layer"])
    as Hsplit by reflexivity.
  assert (record_of "xyz" Examples.store = None) as Hnone
    by (vm_compute; reflexivity).
  split; [exact Htok|]. split; [exact Hsplit|]. split; [exact Hnone|].
  exact (put_content_bulk_path true Examples.environ Examples.layers
           "images/xyz/layer" "xyz" "{}" "secret" Examples.store
           Htok Hsplit Hnone).
Defined.

(** A path under another prefix is refused, here by [get_content] and by
    [put_content]. *)
Lemma invalid_path_raises_witness :
  ¬ (length (split "/" "tmp/abc/json") = 3
     ∧ split "/" "tmp/abc/json" !!! 0 = Storage.images)
  ∧ GlanceStorageLayers.get_content Examples.environ Examples.layers
      "tmp/abc/json" Examples.store
    = (Raise (ValueError "Invalid path: tmp/abc/json"), Examples.store)
  ∧ GlanceStorageLayers.put_content true Examples.environ Examples.layers
      "tmp/abc/json" "{}" Examples.store
    = (Raise (ValueError "Invalid path: tmp/abc/json"), Examples.store).
Proof.
  assert (¬ (length (split "/" "tmp/abc/json") = 3
             ∧ split "/" "tmp/abc/json" !!! 0 = Storage.images)) as Hshape.
  { intros [_ Hfst]. vm_compute in Hfst. discriminate Hfst. }
  destruct (invalid_path_raises true Examples.environ Examples.layers
              "tmp/abc/json" "{}" Examples.store Hshape)
    as (Hget & Hput & _).
  split; [exact Hshape|]. split; [exact Hget|exact Hput].
Defined.

(** Without a token nothing is written. *)
Lemma missing_token_raises_witness :
  (∅ : gmap string string) !! "OS_AUTH_TOKEN" = None
  ∧ length (split "/" "images/abc/json") = 3
  ∧ split "/" "images/abc/json" !!! 0 = Storage.images
  ∧ GlanceStorageLayers.put_content true ∅ Examples.layers
      "images/abc/json" "{}" Examples.store
    = (Raise (KeyError "OS_AUTH_TOKEN"), Examples.store).
Proof.
  assert ((∅ : gmap string string) !! "OS_AUTH_TOKEN" = None) as Htok
    by reflexivity.
  assert (length (split "/" "images/abc/json") = 3) as Hlen by reflexivity.
  assert (split "/" "images/abc/json" !!! 0 = Storage.images) as Hfst
    by reflexivity.
  destruct (missing_token_raises true ∅ Examples.layers "images/abc/json"
              "{}" tt "library" "busybox" "latest" "abc" Examples.store
              Htok Hlen Hfst) as (_ & Hput & _).
  split; [exact Htok|]. split; [exact Hlen|]. split; [exact Hfst|].
  exact Hput.
Defined.

(** [stream_read] of a metadata path is a usage error. *)
Lemma stream_read_result_witness :
  GlanceStorageLayers._init_path Examples.environ Examples.layers
    "images/abc/json" false Examples.store
  = (Ok (Some (mkHandle 0 Examples.abc), Some "meta_json"), Examples.store)
  ∧ fst (GlanceStorageLayers.stream_read Examples.environ Examples.layers
           "images/abc/json" Examples.store)
    = Raise (ValueError "Wrong call (should be get_content)").
Proof.
  assert (GlanceStorageLayers._init_path Examples.environ Examples.layers
            "images/abc/json" false Examples.store
          = (Ok (Some (mkHandle 0 Examples.abc), Some "meta_json"),
             Examples.store)) as Hinit
    by (vm_compute; reflexivity).
  destruct (stream_read_result Examples.environ Examples.layers _ _ _ _ _
              Hinit) as (_ & Husage & _).
  split; [exact Hinit|]. apply Husage.
  intros Heq. vm_compute in Heq. discriminate Heq.
Defined.

(** The size of image [abc], asked through a metadata path. *)
Lemma get_size_result_witness :
  GlanceStorageLayers._init_path Examples.environ Examples.layers
    "images/abc/json" false Examples.store
  = (Ok (Some (mkHandle 0 Examples.abc), Some "meta_json"), Examples.store)
  ∧ fst (GlanceStorageLayers.get_size Examples.environ Examples.layers
           "images/abc/json" Examples.store)
    = Ok 0.
Proof.
  assert (GlanceStorageLayers._init_path Examples.environ Examples.layers
            "images/abc/json" false Examples.store
          = (Ok (Some (mkHandle 0 Examples.abc), Some "meta_json"),
             Examples.store)) as Hinit
    by (vm_compute; reflexivity).
  destruct (get_size_result Examples.environ Examples.layers _ _ _ _ _
              Hinit) as (_ & _ & Hsize).
  split; [exact Hinit|]. exact (Hsize _ eq_refl).
Defined.

(** The event that tags image [def] as [busybox:latest], delivered
    twice. *)
Lemma handler_tag_created_idempotent_witness :
  Examples.environ !! "OS_AUTH_TOKEN" = Some "secret"
  ∧ GlanceStorageLayers._handler_tag_created true Examples.environ
      Examples.layers tt "library" "busybox" "latest" "def"
      (snd (GlanceStorageLayers._handler_tag_created true Examples.environ
              Examples.layers tt "library" "busybox" "latest" "def"
              Examples.store))
    = (Ok tt,
       snd (GlanceStorageLayers._handler_tag_created true Examples.environ
              Examples.layers tt "library" "busybox" "latest" "def"
              Examples.store)).
Proof.
  assert (Examples.environ !! "OS_AUTH_TOKEN" = Some "secret") as Htok
    by (vm_compute; reflexivity).
  split; [exact Htok|].
  exact (handler_tag_created_idempotent true Examples.environ
           Examples.layers "library" "busybox" "latest" "def" "secret"
           Examples.store Htok).
Defined.

(** Image [abc], named [busybox:latest], is tagged [acme/app:1]: nothing
    is named [busybox:latest] any more. *)
Lemma retag_overwrites_name_witness :
  Examples.environ !! "OS_AUTH_TOKEN" = Some "secret"
  ∧ record_of "abc" Examples.store = Some (mkHandle 0 Examples.abc)
  ∧ DisplayName "library" "busybox" "latest" ≠ DisplayName "acme" "app" "1"
  ∧ ∃ st1 st2,
      GlanceStorageLayers._handler_tag_created true Examples.environ
        Examples.layers tt "library" "busybox" "latest" "abc"
        Examples.store = (Ok tt, st1)
      ∧ GlanceStorageLayers._handler_tag_created true Examples.environ
          Examples.layers tt "acme" "app" "1" "abc" st1 = (Ok tt, st2)
      ∧ named st2 0 "acme/app:1"
      ∧ ∀ j, ¬ named st2 j "busybox:latest".
Proof.
  assert (Examples.environ !! "OS_AUTH_TOKEN" = Some "secret") as Htok
    by (vm_compute; reflexivity).
  assert (record_of "abc" Examples.store = Some (mkHandle 0 Examples.abc))
    as Hrec by (vm_compute; reflexivity).
  assert (DisplayName "library" "busybox" "latest"
          ≠ DisplayName "acme" "app" "1") as Hne.
  { intros Heq. vm_compute in Heq. discriminate Heq. }
  split; [exact Htok|]. split; [exact Hrec|]. split; [exact Hne|].
  exact (retag_overwrites_name true Examples.environ Examples.layers
           "library" "busybox" "latest" "acme" "app" "1" "abc" "secret"
           _ Examples.store Htok Hrec Hne).
Defined.

(** Image [def] is tagged [busybox:latest] and the tag is deleted: no
    record has a name. *)
Lemma tag_created_then_deleted_witness :
  Examples.environ !! "OS_AUTH_TOKEN" = Some "secret"
  ∧ record_of "def" Examples.store = Some (mkHandle 1 Examples.def)
  ∧ ∃ st1,
      GlanceStorageLayers._handler_tag_created true Examples.environ
        Examples.layers tt "library" "busybox" "latest" "def"
        Examples.store = (Ok tt, st1)
      ∧ GlanceStorageLayers._handler_tag_deleted true Examples.environ
          Examples.layers tt "library" "busybox" "latest" st1
        = (Ok tt, [Some (with_name None Examples.abc); Some Examples.def]).
Proof.
  assert (Examples.environ !! "OS_AUTH_TOKEN" = Some "secret") as Htok
    by (vm_compute; reflexivity).
  assert (record_of "def" Examples.store = Some (mkHandle 1 Examples.def))
    as Hrec by (vm_compute; reflexivity).
  destruct (tag_created_then_deleted true Examples.environ Examples.layers
              "library" "busybox" "latest" "def" "secret" _ Examples.store
              Htok Hrec) as (st1 & Hcreated & Hdeleted & _).
  split; [exact Htok|]. split; [exact Hrec|].
  exists st1. split; [exact Hcreated|].
  etrans; [exact Hdeleted|]. vm_compute. reflexivity.
Defined.

(** Two records carry the identifier [abc]: after the layer is removed,
    it still exists. *)
Lemma remove_bulk_duplicates_witness :
  Examples.environ !! "OS_AUTH_TOKEN" = Some "secret"
  ∧ split "/" "images/abc/layer" = ["images"; "abc"; "layer"]
  ∧ Examples.duplicates !! 0 = Some (Some Examples.abc)
  ∧ Examples.duplicates !! 2 = Some (Some Examples.abc)
  ∧ matches (id_filters "abc") Examples.abc = true
  ∧ ∃ h, record_of "abc" Examples.duplicates = Some h
         ∧ GlanceStorageLayers.remove true Examples.environ Examples.layers
             "images/abc/layer" Examples.duplicates
           = (Ok tt, <[h_id h := None]> Examples.duplicates)
         ∧ GlanceStorageLayers.exists_ Examples.environ Examples.layers
             "images/abc/layer" (<[h_id h := None]> Examples.duplicates)
           = (Ok true, <[h_id h := None]> Examples.duplicates).
Proof.
  assert (Examples.environ !! "OS_AUTH_TOKEN" = Some "secret") as Htok
    by (vm_compute; reflexivity).
  assert (split "/" "images/abc/layer" = ["images"; "abc"; "layer"])
    as Hsplit by reflexivity.
  assert (Examples.duplicates !! 0 = Some (Some Examples.abc)) as H0
    by reflexivity.
  assert (Examples.duplicates !! 2 = Some (Some Examples.abc)) as H2
    by reflexivity.
  assert (matches (id_filters "abc") Examples.abc = true) as Hm
    by (vm_compute; reflexivity).
  assert (0 ≠ 2) as Hne by discriminate.
  split; [exact Htok|]. split; [exact Hsplit|]. split; [exact H0|].
  split; [exact H2|]. split; [exact Hm|].
  exact (remove_bulk_duplicates true Examples.environ Examples.layers
           "images/abc/layer" "abc" "secret" 0 2 _ _ Examples.duplicates
           Htok Hsplit Hne H0 H2 Hm Hm).
Defined.

(** The [json] property of image [abc] is removed and looked up. *)
Lemma remove_then_lookup_witness :
  Examples.environ !! "OS_AUTH_TOKEN" = Some "secret"
  ∧ split "/" "images/abc/json" = ["images"; "abc"; "json"]
  ∧ "json" ≠ "layer"
  ∧ ∃ st',
      GlanceStorageLayers.remove true Examples.environ Examples.layers
        "images/abc/json" Examples.store = (Ok tt, st')
      ∧ GlanceStorageLayers.exists_ Examples.environ Examples.layers
          "images/abc/json" st' = (Ok false, st')
      ∧ GlanceStorageLayers.get_content Examples.environ Examples.layers
          "images/abc/json" st'
        = (Raise (IOError "No such image images/abc/json"), st').
Proof.
  assert (Examples.environ !! "OS_AUTH_TOKEN" = Some "secret") as Htok
    by (vm_compute; reflexivity).
  assert (split "/" "images/abc/json" = ["images"; "abc"; "json"]) as Hsplit
    by reflexivity.
  assert ("json" ≠ "layer") as Hne by discriminate.
  destruct (remove_then_lookup true Examples.environ Examples.layers
              "images/abc/json" "abc" "json" "secret" Examples.store
              Htok Hsplit Hne eq_refl) as (st' & Hrun & Hexists & Hget & _).
  split; [exact Htok|]. split; [exact Hsplit|]. split; [exact Hne|].
  exists st'. split; [exact Hrun|]. split; [exact Hexists|exact Hget].
Defined.

(** Two metadata files of the new image [xyz]. *)
Lemma put_content_accumulates_witness :
  Examples.environ !! "OS_AUTH_TOKEN" = Some "secret"
  ∧ split "/" "images/xyz/json" = ["images"; "xyz"; "json"]
  ∧ split "/" "images/xyz/ancestry" = ["images"; "xyz"; "ancestry"]
  ∧ ∃ st1 st2,
      GlanceStorageLayers.put_content true Examples.environ Examples.layers
        "images/xyz/json" "{}" Examples.store = (Ok tt, st1)
      ∧ GlanceStorageLayers.put_content true Examples.environ
          Examples.layers "images/xyz/ancestry" "[xyz]" st1 = (Ok tt, st2)
      ∧ length st2 = length st1
      ∧ GlanceStorageLayers.get_content Examples.environ Examples.layers
          "images/xyz/json" st2 = (Ok "{}", st2)
      ∧ GlanceStorageLayers.get_content Examples.environ Examples.layers
          "images/xyz/ancestry" st2 = (Ok "[xyz]", st2).
Proof.
  assert (Examples.environ !! "OS_AUTH_TOKEN" = Some "secret") as Htok
    by (vm_compute; reflexivity).
  assert (split "/" "images/xyz/json" = ["images"; "xyz"; "json"]) as Hjson
    by reflexivity.
  assert (split "/" "images/xyz/ancestry" = ["images"; "xyz"; "ancestry"])
    as Hancestry by reflexivity.
  assert ("json" ≠ "layer") as Hne1 by discriminate.
  assert ("ancestry" ≠ "layer") as Hne2 by discriminate.
  assert ("json" ≠ "ancestry") as Hne by discriminate.
  destruct (put_content_accumulates true Examples.environ Examples.layers
              "images/xyz/json" "images/xyz/ancestry" "xyz" "json"
              "ancestry" "{}" "[xyz]" "secret" Examples.store
              Htok Hjson Hancestry Hne1 Hne2 Hne)
    as (st1 & st2 & Hput1 & Hput2 & Hlen & _ & Hget1 & Hget2).
  split; [exact Htok|]. split; [exact Hjson|]. split; [exact Hancestry|].
  exists st1, st2. split; [exact Hput1|]. split; [exact Hput2|].
  split; [exact Hlen|]. split; [exact Hget1|exact Hget2].
Defined.

(** Uploading the layer of image [abc] leaves its [json] property. *)
Lemma stream_write_keeps_metadata_witness :
  Examples.environ !! "OS_AUTH_TOKEN" = Some "secret"
  ∧ split "/" "images/abc/layer" = ["images"; "abc"; "layer"]
  ∧ split "/" "images/abc/json" = ["images"; "abc"; "json"]
  ∧ ∃ st',
      GlanceStorageLayers.stream_write true Examples.environ Examples.layers
        "images/abc/layer" "tarball" Examples.store = (Ok tt, st')
      ∧ fst (GlanceStorageLayers.get_content Examples.environ
               Examples.layers "images/abc/json" st')
        = Ok "{}".
Proof.
  assert (Examples.environ !! "OS_AUTH_TOKEN" = Some "secret") as Htok
    by (vm_compute; reflexivity).
  assert (split "/" "images/abc/layer" = ["images"; "abc"; "layer"])
    as Hlayer by reflexivity.
  assert (split "/" "images/abc/json" = ["images"; "abc"; "json"]) as Hjson
    by reflexivity.
  assert ("json" ≠ "layer") as Hne by discriminate.
  destruct (stream_write_keeps_metadata true Examples.environ
              Examples.layers "images/abc/layer" "images/abc/json" "abc"
              "json" "tarball" "secret" Examples.store
              Htok Hlayer Hjson Hne) as (st' & Hwrite & Hsame).
  split; [exact Htok|]. split; [exact Hlayer|]. split; [exact Hjson|].
  exists st'. split; [exact Hwrite|].
  etrans; [exact Hsame|]. vm_compute. reflexivity.
Defined.

(** The image [cirros] carries the identifier [xyz] in another format:
    the layer store does not see it and writes a record of its own. *)
Lemma foreign_format_invisible_witness :
  Examples.environ !! "OS_AUTH_TOKEN" = Some "secret"
  ∧ split "/" "images/xyz/json" = ["images"; "xyz"; "json"]
  ∧ "json" ≠ "layer"
  ∧ GlanceStorageLayers.exists_ Examples.environ Examples.layers
      "images/xyz/json" Examples.foreign_store
    = (Ok false, Examples.foreign_store)
  ∧ ∃ img',
      GlanceStorageLayers.put_content true Examples.environ Examples.layers
        "images/xyz/json" "{}" Examples.foreign_store
      = (Ok tt, Examples.foreign_store ++ [Some img']).
Proof.
  assert (Examples.environ !! "OS_AUTH_TOKEN" = Some "secret") as Htok
    by (vm_compute; reflexivity).
  assert (split "/" "images/xyz/json" = ["images"; "xyz"; "json"]) as Hsplit
    by reflexivity.
  assert ("json" ≠ "layer") as Hne by discriminate.
  assert (∀ j img,
            Examples.foreign_store !! j = Some (Some img) →
            properties img !! "id" = Some "xyz" →
            disk_format img ≠ "raw" ∨ container_format img ≠ "bare")
    as Hforeign.
  { intros [|[|j]] img Hj Hid; simpl in Hj; try discriminate Hj.
    - injection Hj as <-. vm_compute in Hid. discriminate Hid.
    - injection Hj as <-. left. discriminate. }
  destruct (foreign_format_invisible true Examples.environ Examples.layers
              "images/xyz/json" "xyz" "json" "{}" "secret"
              Examples.foreign_store Htok Hsplit Hne Hforeign)
    as (Hexists & img' & Hput & _).
  split; [exact Htok|]. split; [exact Hsplit|]. split; [exact Hne|].
  split; [exact Hexists|]. exists img'. exact Hput.
Defined.



(** A configuration that says [s3] sends repository paths to the object
    store. *)
Lemma init_then_dispatch_witness :
  GlanceStorage.__init__ Examples.s3_config
  = Ok (GlanceStorage.mk Examples.s3_config
          (GlanceStorage.Layers
             (GlanceStorageLayers.__init__ Examples.s3_config))
          (GlanceStorage.S3Storage Examples.s3_config)
          GlanceStorage.BaseStorage)
  ∧ call_path [GlanceStorage.PStr "repositories/library/busybox"] ∅
    = GlanceStorage.PStr "repositories/library/busybox"
  ∧ GlanceStorage._resolve_class_path Examples.class_attr
      (GlanceStorage.mk Examples.s3_config
         (GlanceStorage.Layers
            (GlanceStorageLayers.__init__ Examples.s3_config))
         (GlanceStorage.S3Storage Examples.s3_config)
         GlanceStorage.BaseStorage)
      "get_content" [GlanceStorage.PStr "repositories/library/busybox"] ∅
    = Ok (GlanceStorage.PMethod
            (GlanceStorage.S3Storage Examples.s3_config) "get_content").
Proof.
  assert (GlanceStorage.__init__ Examples.s3_config
          = Ok (GlanceStorage.mk Examples.s3_config
                  (GlanceStorage.Layers
                     (GlanceStorageLayers.__init__ Examples.s3_config))
                  (GlanceStorage.S3Storage Examples.s3_config)
                  GlanceStorage.BaseStorage)) as Hinit
    by (vm_compute; reflexivity).
  assert (call_path [GlanceStorage.PStr "repositories/library/busybox"] ∅
          = GlanceStorage.PStr "repositories/library/busybox") as Hpath
    by reflexivity.
  split; [exact Hinit|]. split; [exact Hpath|].
  etrans; [exact (init_then_dispatch Examples.class_attr _ _
                    "get_content" _ _ _ Hinit Hpath)|].
  vm_compute. reflexivity.
Defined.
